(** * ssd1306: the NanoEngine frame scheduler and the ST7735 block interface

    A shallow embedding of [NanoEngineBase] (frame pacing, button queries,
    key sources) and of the block-addressing operations declared by
    [InterfaceST7735], with the properties of the design document proved
    over it. *)

From Stdlib Require Import ZArith List Bool Lia.
Import ListNotations.
Local Open Scope Z_scope.

(** ** Machine integers

    [uint8_t] and [uint32_t] values are integers reduced modulo the width of
    the type on every store and on every unsigned arithmetic result. *)

Definition u8 (z : Z) : Z := z mod 256.
Definition u32 (z : Z) : Z := z mod 2 ^ 32.

(** ** Function pointers

    An application function is known by its address.  The key source
    [m_onButtons] holds either the address of one of the two built-in
    decoders or the address of an application handler; [None] is
    [nullptr]. *)

Definition UserFn := nat.

Inductive TNanoEngineGetButtons : Type :=
| fn_zkeypadButtons
| fn_arduboyButtons
| fn_custom (handler : UserFn).

Definition TLoopCallback := UserFn.
Definition TNanoEngineOnDraw := UserFn.

(** ** The state the engine lives in *)

(** The static members of [NanoEngineBase]. *)
Record NanoEngineBase : Type := mkEngine {
  m_frameDurationMs : Z;                         (* uint8_t  *)
  m_fps : Z;                                     (* uint8_t  *)
  m_cpuLoad : Z;                                 (* uint8_t  *)
  m_lastFrameTs : Z;                             (* uint32_t *)
  m_onDraw : option TNanoEngineOnDraw;
  m_onButtons : option TNanoEngineGetButtons;
  m_loop : option TLoopCallback;
  s_zkeypadPin : Z                               (* uint8_t  *)
}.

(** What the board exposes: the millisecond counter since power-up (not
    reduced; [millis] reduces it), the analog inputs and the three input
    port registers read by the Arduboy decoder. *)
Record Hardware : Type := mkHardware {
  clock_ms : Z;
  analog : Z -> Z;
  PINF : Z;
  PINE : Z;
  PINB : Z
}.

(** The whole machine: engine statics, board, and the memory of the
    application (address to value). *)
Record World : Type := mkWorld {
  engine : NanoEngineBase;
  hw : Hardware;
  app : Z -> Z
}.

Definition ENGINE_DEFAULT_FPS : Z := 30.

(** Static initialisation: the initialisers of the source file;
    [m_lastFrameTs] and [s_zkeypadPin] have none and start at zero. *)
Definition engine_init : NanoEngineBase :=
  {| m_frameDurationMs := u8 (1000 ÷ ENGINE_DEFAULT_FPS);
     m_fps := ENGINE_DEFAULT_FPS;
     m_cpuLoad := 0;
     m_lastFrameTs := 0;
     m_onDraw := None;
     m_onButtons := None;
     m_loop := None;
     s_zkeypadPin := 0 |}.

Definition set_frameDurationMs (v : Z) (e : NanoEngineBase) : NanoEngineBase :=
  mkEngine v (m_fps e) (m_cpuLoad e) (m_lastFrameTs e)
           (m_onDraw e) (m_onButtons e) (m_loop e) (s_zkeypadPin e).

Definition set_fps (v : Z) (e : NanoEngineBase) : NanoEngineBase :=
  mkEngine (m_frameDurationMs e) v (m_cpuLoad e) (m_lastFrameTs e)
           (m_onDraw e) (m_onButtons e) (m_loop e) (s_zkeypadPin e).

Definition set_lastFrameTs (v : Z) (e : NanoEngineBase) : NanoEngineBase :=
  mkEngine (m_frameDurationMs e) (m_fps e) (m_cpuLoad e) v
           (m_onDraw e) (m_onButtons e) (m_loop e) (s_zkeypadPin e).

Definition set_onButtons (v : option TNanoEngineGetButtons)
           (e : NanoEngineBase) : NanoEngineBase :=
  mkEngine (m_frameDurationMs e) (m_fps e) (m_cpuLoad e) (m_lastFrameTs e)
           (m_onDraw e) v (m_loop e) (s_zkeypadPin e).

Definition set_loop (v : option TLoopCallback)
           (e : NanoEngineBase) : NanoEngineBase :=
  mkEngine (m_frameDurationMs e) (m_fps e) (m_cpuLoad e) (m_lastFrameTs e)
           (m_onDraw e) (m_onButtons e) v (s_zkeypadPin e).

Definition set_zkeypadPin (v : Z) (e : NanoEngineBase) : NanoEngineBase :=
  mkEngine (m_frameDurationMs e) (m_fps e) (m_cpuLoad e) (m_lastFrameTs e)
           (m_onDraw e) (m_onButtons e) (m_loop e) v.

Definition with_engine (f : NanoEngineBase -> NanoEngineBase) (w : World) : World :=
  mkWorld (f (engine w)) (hw w) (app w).

(** The environment lets time pass between two calls. *)
Definition elapse (d : Z) (w : World) : World :=
  mkWorld (engine w)
          (mkHardware (clock_ms (hw w) + d) (analog (hw w))
                      (PINF (hw w)) (PINE (hw w)) (PINB (hw w)))
          (app w).

(** ** What the source file takes from elsewhere *)

(** The button constants of the engine's header, which the decoders return
    by name.  Their numeric values are not fixed here. *)
Class ButtonCodes : Type := mkButtonCodes {
  BUTTON_NONE : Z;
  BUTTON_DOWN : Z;
  BUTTON_LEFT : Z;
  BUTTON_RIGHT : Z;
  BUTTON_UP : Z;
  BUTTON_A : Z;
  BUTTON_B : Z
}.

(** The sketch the engine is linked with: what its callbacks do when they
    are called through their address, and the target the library is
    compiled for ([__AVR_ATmega32U4__] defined or not). *)
Class Sketch : Type := mkSketch {
  user_loop : UserFn -> World -> World;
  user_buttons : UserFn -> World -> Z * World;
  AVR_ATmega32U4 : bool
}.

(** ** A monad for engine code

    A member function runs on a world and either completes with a result, a
    new world and the list of calls it made through function pointers, or
    stops in a fault ([nullptr] called, division by zero). *)

Inductive Fault : Type := NullCall | DivByZero.

Inductive Call : Type :=
| CallLoop (f : TLoopCallback)
| CallButtons (f : TNanoEngineGetButtons).

Inductive Outcome (A : Type) : Type :=
| Done (a : A) (w : World) (calls : list Call)
| Crash (e : Fault) (calls : list Call).

Arguments Done {A} a w calls.
Arguments Crash {A} e calls.

Definition M (A : Type) : Type := World -> Outcome A.

Definition ret {A} (a : A) : M A := fun w => Done a w [].

Definition bind {A B} (m : M A) (k : A -> M B) : M B :=
  fun w =>
    match m w with
    | Done a w1 c1 =>
        match k a w1 with
        | Done b w2 c2 => Done b w2 (c1 ++ c2)
        | Crash e c2 => Crash e (c1 ++ c2)
        end
    | Crash e c1 => Crash e c1
    end.

Definition crash {A} (e : Fault) : M A := fun _ => Crash e [].
Definition gets {A} (f : World -> A) : M A := fun w => Done (f w) w [].
Definition modify (f : World -> World) : M unit := fun w => Done tt (f w) [].

Declare Scope engine_scope.
Delimit Scope engine_scope with engine.
Notation "x <- m ;; k" := (bind m (fun x => k))
  (at level 61, m at next level, right associativity) : engine_scope.
Notation "m ;;; k" := (bind m (fun _ => k))
  (at level 61, right associativity) : engine_scope.
Local Open Scope engine_scope.

(** ** Platform calls *)

(** [millis()]: the 32-bit millisecond counter. *)
Definition millis : M Z := gets (fun w => u32 (clock_ms (hw w))).

(** [analogRead(pin)]: an [int]. *)
Definition analogRead (pin : Z) : M Z := gets (fun w => analog (hw w) pin).

(** ** NanoEngineBase *)

Definition begin : M unit :=
  t <- millis ;;
  modify (with_engine (set_lastFrameTs t)).

(** [1000/fps] is an [int] division; it faults for [fps = 0] and its result
    is narrowed to the 8-bit field. *)
Definition setFrameRate (fps : Z) : M unit :=
  modify (with_engine (set_fps fps)) ;;;
  if fps =? 0 then crash DivByZero
  else modify (with_engine (set_frameDurationMs (u8 (1000 ÷ fps)))).

Definition call_loop `{Sketch} (f : TLoopCallback) : M unit :=
  fun w => Done tt (user_loop f w) [CallLoop f].

Definition nextFrame `{Sketch} : M bool :=
  now <- millis ;;
  e <- gets engine ;;
  let needUpdate := u32 (now - m_lastFrameTs e) >=? m_frameDurationMs e in
  (if needUpdate
   then match m_loop e with Some f => call_loop f | None => ret tt end
   else ret tt) ;;;
  ret needUpdate.

Definition zkeypadButtons `{ButtonCodes} : M Z :=
  pin <- gets (fun w => s_zkeypadPin (engine w)) ;;
  buttonValue <- analogRead pin ;;
  if buttonValue <? 100 then ret (u8 BUTTON_RIGHT)
  else if buttonValue <? 200 then ret (u8 BUTTON_UP)
  else if buttonValue <? 400 then ret (u8 BUTTON_DOWN)
  else if buttonValue <? 600 then ret (u8 BUTTON_LEFT)
  else if buttonValue <? 800 then ret (u8 BUTTON_A)
  else ret (u8 BUTTON_NONE).

Definition arduboyButtons `{Sketch} : M Z :=
  if AVR_ATmega32U4 then
    h <- gets hw ;;
    let buttons := u8 (Z.shiftr (Z.land (Z.lnot (PINF h)) 240) 4) in
    let buttons := u8 (Z.lor buttons (Z.shiftr (Z.land (Z.lnot (PINE h)) 64) 2)) in
    let buttons := u8 (Z.lor buttons (Z.shiftl (Z.land (Z.lnot (PINB h)) 16) 1)) in
    ret buttons
  else ret 0.

(** The call [f()] of a non-null key source. *)
Definition invoke_buttons `{ButtonCodes} `{Sketch}
           (f : TNanoEngineGetButtons) : M Z :=
  fun w =>
    match
      match f with
      | fn_zkeypadButtons => zkeypadButtons w
      | fn_arduboyButtons => arduboyButtons w
      | fn_custom h => let (s, w1) := user_buttons h w in Done (u8 s) w1 []
      end
    with
    | Done s w1 c => Done s w1 (CallButtons f :: c)
    | Crash e c => Crash e (CallButtons f :: c)
    end.

(** The call [m_onButtons()]: nothing tests the pointer first. *)
Definition call_onButtons `{ButtonCodes} `{Sketch} : M Z :=
  p <- gets (fun w => m_onButtons (engine w)) ;;
  match p with
  | Some f => invoke_buttons f
  | None => crash NullCall
  end.

Definition pressed `{ButtonCodes} `{Sketch} (buttons : Z) : M bool :=
  s <- call_onButtons ;;
  ret (Z.land s buttons =? buttons).

Definition notPressed `{ButtonCodes} `{Sketch} (buttons : Z) : M bool :=
  s <- call_onButtons ;;
  ret (Z.land s buttons =? 0).

Definition connectCustomKeys (handler : option TNanoEngineGetButtons) : M unit :=
  modify (with_engine (set_onButtons handler)).

Definition connectArduboyKeys : M unit :=
  modify (with_engine (set_onButtons (Some fn_arduboyButtons))).

Definition connectZKeypad (analogPin : Z) : M unit :=
  modify (with_engine (set_zkeypadPin analogPin)) ;;;
  modify (with_engine (set_onButtons (Some fn_zkeypadButtons))).

(** ** InterfaceST7735: block addressing

    The header declares [startBlock], [nextBlock] and [endBlock] and
    documents them; their bodies are in [lcd_st7735.inl]. *)

(** Geometry of the display the interface is attached to (its [m_base]). *)
Record Geometry : Type := mkGeometry {
  width : Z;
  height : Z;
  colorDepth : Z;
  orientation : Z
}.

(** An open write window, with its width already resolved. *)
Record Window : Type := mkWindow {
  win_x : Z;
  win_y : Z;
  win_w : Z
}.

(** What goes over the bus. *)
Inductive BusOp : Type :=
| BusStart
| BusCommand (b : Z)
| BusData (b : Z)
| BusStop.

Record InterfaceST7735 : Type := mkInterface {
  m_base : Geometry;
  m_dc : Z;
  m_rotation : Z;
  window : option Window;
  bus : list BusOp
}.

Inductive WindowError : Type :=
| WindowAlreadyOpen
| OutOfBounds
| NoOpenWindow.

Inductive WindowResult : Type :=
| Opened (i : InterfaceST7735)
| Rejected (e : WindowError).

(** The controller's command encoder: the byte sequence that sets the RAM
    window registers for a resolved window under a given rotation. *)
Class CommandEncoder : Type := mkEncoder {
  set_window : Geometry -> Z -> Window -> list BusOp
}.

(** Modelled from the spec: the width resolution inside the missing body of
    [startBlock].  Width of the window opened at column [x] when the caller
    passes [w]: zero stands for "up to the right edge", and the result is
    clipped to the surface. *)
Definition resolve_width (g : Geometry) (x w : Z) : Z :=
  Z.min (if w =? 0 then width g - x else w) (width g - x).

(** Modelled from the spec: the body of [InterfaceST7735::startBlock]
    (lcd_st7735.inl) is missing.  Following the design document: a call
    while a window is open is rejected; coordinates outside the geometry are
    rejected before any bus traffic; otherwise the width is resolved once
    ([w == 0] meaning surface width minus [x]), the bus session is started
    and left open, and the encoder's window sequence is sent. *)
Definition startBlock `{CommandEncoder} (x y w : Z)
           (i : InterfaceST7735) : WindowResult :=
  match window i with
  | Some _ => Rejected WindowAlreadyOpen
  | None =>
      if (0 <=? x) && (x <? width (m_base i))
         && (0 <=? y) && (y <? height (m_base i))
      then
        let win := mkWindow x y (resolve_width (m_base i) x w) in
        Opened (mkInterface (m_base i) (m_dc i) (m_rotation i) (Some win)
                  (bus i ++ BusStart :: set_window (m_base i) (m_rotation i) win))
      else Rejected OutOfBounds
  end.

(** Modelled from the spec: the body of [InterfaceST7735::nextBlock]
    (lcd_st7735.inl) is missing.  The header documents it as doing nothing
    for ST7735 and the design document as a no-op for directly-addressed
    controllers; without an open window the call is a sequencing error. *)
Definition nextBlock (i : InterfaceST7735) : WindowResult :=
  match window i with
  | Some _ => Opened i
  | None => Rejected NoOpenWindow
  end.

(** [n] successive [nextBlock] calls, stopping at the first rejection. *)
Fixpoint nextBlocks (n : nat) (r : WindowResult) : WindowResult :=
  match n with
  | O => r
  | S n' =>
      match r with
      | Opened i => nextBlocks n' (nextBlock i)
      | Rejected e => Rejected e
      end
  end.

(** ** Sample instances, used to run the model on concrete inputs *)

(** One bit per button. *)
Definition sample_codes : ButtonCodes :=
  mkButtonCodes 0 1 2 4 8 16 32.

(** A sketch whose loop callback [f] counts its calls in the application
    cell [f], and whose key handler [h] reports the mask [h]. *)
Definition sample_sketch : Sketch :=
  {| user_loop := fun f w =>
       mkWorld (engine w) (hw w)
               (fun a => if a =? Z.of_nat f then app w a + 1 else app w a);
     user_buttons := fun h w => (Z.of_nat h, w);
     AVR_ATmega32U4 := false |}.

Definition sample_hw (t : Z) (v : Z) : Hardware :=
  mkHardware t (fun _ => v) 255 255 255.

(** Power-up at clock [t], with [v] on every analog input. *)
Definition power_up (t v : Z) : World :=
  mkWorld engine_init (sample_hw t v) (fun _ => 0).

(** The world after [connectCustomKeys] of the handler reporting mask 5. *)
Definition keyed_world : World :=
  with_engine (set_onButtons (Some (fn_custom 5%nat))) (power_up 0 1023).

(** The world with loop callback 7 installed, 40 ms after the last frame. *)
Definition hooked_world : World :=
  elapse 40 (with_engine (set_loop (Some 7%nat)) (power_up 0 1023)).

(** A world whose clock has wrapped: the last frame was taken 10 ms before
    the 32-bit counter overflowed, and it is now 30 ms after. *)
Definition wrapped_world : World :=
  mkWorld (set_lastFrameTs (2 ^ 32 - 10) engine_init)
          (sample_hw (2 ^ 32 + 30) 1023) (fun _ => 0).

(** A sample window sequence: column range, row range, RAM write. *)
Definition sample_encoder : CommandEncoder :=
  {| set_window := fun g rot win =>
       [BusCommand 42; BusData 0; BusData (win_x win);
        BusData 0; BusData (win_x win + win_w win - 1);
        BusCommand 43; BusData 0; BusData (win_y win);
        BusData 0; BusData (height g - 1);
        BusCommand 44] |}.

Definition sample_interface : InterfaceST7735 :=
  mkInterface (mkGeometry 128 160 16 0) 4 0 None [].

(** The same interface with a window open at (8, 16), 32 columns wide. *)
Definition sample_open_interface : InterfaceST7735 :=
  mkInterface (mkGeometry 128 160 16 0) 4 0 (Some (mkWindow 8 16 32))
              [BusStart; BusCommand 44].

(** ** Derived quantities used in the statements *)

(** The elapsed time as [nextFrame] computes it. *)
Definition elapsed_ms (w : World) : Z :=
  u32 (u32 (clock_ms (hw w)) - m_lastFrameTs (engine w)).

(** Calls made and world reached when the frame hook is run from [w]. *)
Definition hook_calls (w : World) : list Call :=
  match m_loop (engine w) with
  | Some f => [CallLoop f]
  | None => []
  end.

Definition hook_world `{Sketch} (w : World) : World :=
  match m_loop (engine w) with
  | Some f => user_loop f w
  | None => w
  end.

(** A value with exactly one of the eight low bits set. *)
Definition single_bit (x : Z) : bool :=
  existsb (fun k => x =? 2 ^ k) [0; 1; 2; 3; 4; 5; 6; 7].

(** The button constants are usable as a mask encoding: no button is zero,
    each of the six buttons is one bit, and no two share a bit. *)
Definition codes_wf `{ButtonCodes} : Prop :=
  BUTTON_NONE = 0 /\
  forallb single_bit
    [BUTTON_DOWN; BUTTON_LEFT; BUTTON_RIGHT; BUTTON_UP; BUTTON_A; BUTTON_B] = true /\
  NoDup [BUTTON_DOWN; BUTTON_LEFT; BUTTON_RIGHT; BUTTON_UP; BUTTON_A; BUTTON_B].

(** ** The SPI display objects of the ST7735 header *)

(** [SPlatformSpiConfig], its members in the order in which the
    constructors of the header list them in their aggregate initialisers. *)
Record SPlatformSpiConfig : Type := mkSpiConfig {
  busId : Z;
  cs : Z;
  dc : Z;
  frequency : Z;
  scl : Z;
  sda : Z
}.

(** The default argument [{ -1, -1, -1, 0, -1, -1 }] of both constructors. *)
Definition default_spi_config : SPlatformSpiConfig :=
  mkSpiConfig (-1) (-1) (-1) 0 (-1) (-1).

(** What a constructed SPI display holds: its reset pin, the data/command
    pin and the rotation of its [InterfaceST7735] member, and the
    configuration that member's platform SPI was constructed with. *)
Record DisplayST7735_SPI : Type := mkDisplaySPI {
  m_rstPin : Z;
  m_spi_dc : Z;
  m_spi_rotation : Z;
  m_spi_platform : SPlatformSpiConfig
}.

(** The constructor of [DisplayST7735_128x128x16_SPI]:
    [config.frequency ?: 8000000] is the frequency when it is not zero. *)
Definition DisplayST7735_128x128x16_SPI (rstPin : Z)
           (config : SPlatformSpiConfig) : DisplayST7735_SPI :=
  mkDisplaySPI rstPin (dc config) 0
    (mkSpiConfig (busId config) (cs config) (dc config)
       (if negb (frequency config =? 0) then frequency config else 8000000)
       (scl config) (sda config)).

(** The constructor of [DisplayST7735_128x160x16_SPI]. *)
Definition DisplayST7735_128x160x16_SPI (rstPin : Z)
           (config : SPlatformSpiConfig) : DisplayST7735_SPI :=
  mkDisplaySPI rstPin (dc config) 0
    (mkSpiConfig (busId config) (cs config) (dc config)
       (if negb (frequency config =? 0) then frequency config else 8000000)
       (scl config) (sda config)).

(** ** Further sample inputs *)

(** A sketch built for the Arduboy (ATmega32U4). *)
Definition arduboy_sketch : Sketch :=
  {| user_loop := fun _ w => w;
     user_buttons := fun _ w => (0, w);
     AVR_ATmega32U4 := true |}.

(** An Arduboy with only the A button held: port E bit 6 low. *)
Definition arduboy_world : World :=
  mkWorld (set_onButtons (Some fn_arduboyButtons) engine_init)
          (mkHardware 0 (fun _ => 0) 255 191 255) (fun _ => 0).

(** * Properties *)

(** ** Arithmetic and bit-level facts *)

Lemma u32_sub_u32 (a b : Z) : u32 (u32 a - u32 b) = u32 (a - b).
Proof. unfold u32. symmetry. apply Zminus_mod. Qed.

Lemma u32_small (z : Z) : 0 <= z < 2 ^ 32 -> u32 z = z.
Proof. intros Hz. unfold u32. apply Z.mod_small. exact Hz. Qed.

Lemma u8_small (z : Z) : 0 <= z < 256 -> u8 z = z.
Proof. intros Hz. unfold u8. apply Z.mod_small. exact Hz. Qed.

Lemma geb_true_iff (a b : Z) : (a >=? b) = true <-> b <= a.
Proof. rewrite Z.geb_leb. apply Z.leb_le. Qed.

Lemma geb_false_iff (a b : Z) : (a >=? b) = false <-> a < b.
Proof. rewrite Z.geb_leb. apply Z.leb_gt. Qed.

(** [(s & m) == m] says that [s] has every bit of [m]. *)
Lemma land_eq_mask_iff (s m : Z) :
  Z.land s m = m <->
  (forall i, Z.testbit m i = true -> Z.testbit s i = true).
Proof.
  split.
  - intros Hland i Hi. rewrite <- Hland in Hi.
    rewrite Z.land_spec in Hi. apply andb_prop in Hi. tauto.
  - intros Hall. apply Z.bits_inj'. intros n _.
    rewrite Z.land_spec.
    destruct (Z.testbit m n) eqn:Hm.
    + rewrite (Hall n Hm). reflexivity.
    + apply andb_false_r.
Qed.

(** [(s & m) == 0] says that [s] has no bit of [m]. *)
Lemma land_eq_zero_iff (s m : Z) :
  Z.land s m = 0 <->
  (forall i, Z.testbit m i = true -> Z.testbit s i = false).
Proof.
  split.
  - intros Hland i Hi.
    assert (Hbit : Z.testbit (Z.land s m) i = false)
      by (rewrite Hland; apply Z.bits_0).
    rewrite Z.land_spec, Hi, andb_true_r in Hbit. exact Hbit.
  - intros Hnone. apply Z.bits_inj'. intros n _.
    rewrite Z.land_spec, Z.bits_0.
    destruct (Z.testbit m n) eqn:Hm.
    + rewrite (Hnone n Hm). reflexivity.
    + apply andb_false_r.
Qed.

(** ** Key sources *)

Section KeySources.
Context {codes : ButtonCodes} {sketch : Sketch}.

(** The built-in decoders and application handlers always return. *)
Lemma invoke_buttons_total (f : TNanoEngineGetButtons) (w : World) :
  exists s w1 c, invoke_buttons f w = Done s w1 c.
Proof.
  unfold invoke_buttons. destruct f as [ | | h].
  - unfold zkeypadButtons, bind, gets, analogRead, ret; simpl.
    repeat match goal with
           | |- context [if ?b then _ else _] => destruct b
           end; eauto.
  - unfold arduboyButtons. destruct AVR_ATmega32U4;
      unfold bind, gets, ret; simpl; eauto.
  - destruct (user_buttons h w) as [s w1]. eauto.
Qed.

Lemma call_onButtons_installed (f : TNanoEngineGetButtons) (w : World) :
  m_onButtons (engine w) = Some f ->
  call_onButtons w = invoke_buttons f w.
Proof.
  intros Hf. unfold call_onButtons, bind, gets. rewrite Hf.
  destruct (invoke_buttons f w); reflexivity.
Qed.

Lemma call_onButtons_null (w : World) :
  m_onButtons (engine w) = None ->
  call_onButtons w = Crash NullCall [].
Proof.
  intros Hf. unfold call_onButtons, bind, gets. rewrite Hf. reflexivity.
Qed.

Lemma pressed_done (m : Z) w s w1 c :
  call_onButtons w = Done s w1 c ->
  pressed m w = Done (Z.land s m =? m) w1 c.
Proof.
  intros Hs. unfold pressed, bind, ret. rewrite Hs, app_nil_r. reflexivity.
Qed.

Lemma notPressed_done (m : Z) w s w1 c :
  call_onButtons w = Done s w1 c ->
  notPressed m w = Done (Z.land s m =? 0) w1 c.
Proof.
  intros Hs. unfold notPressed, bind, ret. rewrite Hs, app_nil_r. reflexivity.
Qed.

(** C1. With a key source installed, [pressed m] answers whether every
    bit of [m] is set in the sampled state [s] ([(s & m) == m]),
    [notPressed m] whether none is ([(s & m) == 0]); when [s] has one bit
    of [m] and lacks another, both answer false. *)
Theorem pressed_notPressed_bits (m : Z) (w : World) (f : TNanoEngineGetButtons) :
  m_onButtons (engine w) = Some f ->
  exists s w1 c,
    invoke_buttons f w = Done s w1 c /\
    pressed m w = Done (Z.land s m =? m) w1 c /\
    notPressed m w = Done (Z.land s m =? 0) w1 c /\
    ((Z.land s m =? m) = true <->
     (forall i, Z.testbit m i = true -> Z.testbit s i = true)) /\
    ((Z.land s m =? 0) = true <->
     (forall i, Z.testbit m i = true -> Z.testbit s i = false)) /\
    ((exists i, Z.testbit m i = true /\ Z.testbit s i = true) ->
     (exists j, Z.testbit m j = true /\ Z.testbit s j = false) ->
     pressed m w = Done false w1 c /\ notPressed m w = Done false w1 c).
Proof.
  intros Hf.
  destruct (invoke_buttons_total f w) as (s & w1 & c & Hs).
  exists s, w1, c.
  assert (Hcall : call_onButtons w = Done s w1 c)
    by (rewrite (call_onButtons_installed f w Hf); exact Hs).
  pose proof (pressed_done m _ _ _ _ Hcall) as Hp.
  pose proof (notPressed_done m _ _ _ _ Hcall) as Hn.
  split; [exact Hs | ].
  split; [exact Hp | ].
  split; [exact Hn | ].
  split; [rewrite Z.eqb_eq; apply land_eq_mask_iff | ].
  split; [rewrite Z.eqb_eq; apply land_eq_zero_iff | ].
  intros (i & Hmi & Hsi) (j & Hmj & Hsj).
  rewrite Hp, Hn. split; f_equal; apply Z.eqb_neq; intros Heq.
  - rewrite (proj1 (land_eq_mask_iff s m) Heq j Hmj) in Hsj. discriminate.
  - rewrite (proj1 (land_eq_zero_iff s m) Heq i Hmi) in Hsi. discriminate.
Qed.

End KeySources.

(** ** Frame pacing *)

Section FramePacing.
Context {sketch : Sketch}.

(** [nextFrame] in closed form: the deadline test, then the hook. *)
Lemma nextFrame_unfold (w : World) :
  nextFrame w =
  if elapsed_ms w >=? m_frameDurationMs (engine w)
  then Done true (hook_world w) (hook_calls w)
  else Done false w [].
Proof.
  unfold nextFrame, elapsed_ms, hook_world, hook_calls,
    bind, millis, gets, ret, call_loop; simpl.
  destruct (u32 (u32 (clock_ms (hw w)) - m_lastFrameTs (engine w))
            >=? m_frameDurationMs (engine w)); [ | reflexivity].
  destruct (m_loop (engine w)); reflexivity.
Qed.

(** C2. [nextFrame] always returns; it returns true exactly when the
    elapsed time has reached the frame duration; the hook is called
    exactly when it is installed and the frame is due, once; and a call
    before the deadline returns false, calls nothing and leaves the world
    as it was. *)
Theorem nextFrame_deadline (w : World) :
  exists b w' c,
    nextFrame w = Done b w' c /\
    (b = true <-> m_frameDurationMs (engine w) <= elapsed_ms w) /\
    (forall f, In (CallLoop f) c <->
               m_loop (engine w) = Some f /\
               m_frameDurationMs (engine w) <= elapsed_ms w) /\
    (forall f, m_loop (engine w) = Some f ->
               m_frameDurationMs (engine w) <= elapsed_ms w ->
               c = [CallLoop f] /\ w' = user_loop f w) /\
    (m_loop (engine w) = None -> c = [] /\ w' = w) /\
    (elapsed_ms w < m_frameDurationMs (engine w) ->
     b = false /\ c = [] /\ w' = w).
Proof.
  rewrite nextFrame_unfold. unfold hook_world, hook_calls.
  destruct (elapsed_ms w >=? m_frameDurationMs (engine w)) eqn:Hdue.
  - apply geb_true_iff in Hdue.
    destruct (m_loop (engine w)) as [g | ] eqn:Hloop.
    + exists true, (user_loop g w), [CallLoop g].
      split; [reflexivity | ].
      split; [tauto | ].
      split.
      { intros f. simpl. split.
        - intros [Heq | []]. inversion Heq. subst. tauto.
        - intros [Heq _]. inversion Heq. subst. left. reflexivity. }
      split.
      { intros f Heq _. inversion Heq. subst. tauto. }
      split; [discriminate | lia].
    + exists true, w, [].
      split; [reflexivity | ].
      split; [tauto | ].
      split.
      { intros f. simpl. split; [tauto | intros [Heq _]; discriminate]. }
      split; [discriminate | ].
      split; [tauto | lia].
  - apply geb_false_iff in Hdue.
    exists false, w, [].
    split; [reflexivity | ].
    split; [split; [discriminate | lia] | ].
    split.
    { intros f. simpl. split; [tauto | lia]. }
    split; [lia | tauto].
Qed.

(** C9. The clock wraps at 2^32 but the test does not notice: if the
    timestamp was taken at true time [T_last], the clock now shows true
    time [T_now], and less than 2^32 ms lie between them, the elapsed time
    computed is the true one and [nextFrame] returns the true comparison. *)
Theorem nextFrame_wraparound (w : World) (T_last T_now : Z) :
  clock_ms (hw w) = T_now ->
  m_lastFrameTs (engine w) = u32 T_last ->
  0 <= T_now - T_last < 2 ^ 32 ->
  elapsed_ms w = T_now - T_last /\
  exists w' c,
    nextFrame w = Done (T_now - T_last >=? m_frameDurationMs (engine w)) w' c.
Proof.
  intros Hnow Hlast Hrange.
  assert (Hel : elapsed_ms w = T_now - T_last).
  { unfold elapsed_ms. rewrite Hnow, Hlast, u32_sub_u32.
    apply u32_small, Hrange. }
  split; [exact Hel | ].
  rewrite nextFrame_unfold, Hel.
  destruct (T_now - T_last >=? m_frameDurationMs (engine w)); eauto.
Qed.

(** [begin] commits the current time as the last frame time. *)
Lemma begin_done (w : World) :
  begin w = Done tt (with_engine (set_lastFrameTs (u32 (clock_ms (hw w)))) w) [].
Proof. reflexivity. Qed.

Lemma elapsed_after_commit (w : World) (d : Z) :
  m_lastFrameTs (engine w) = u32 (clock_ms (hw w)) ->
  0 <= d < 2 ^ 32 ->
  elapsed_ms (elapse d w) = d.
Proof.
  intros Hts Hd. unfold elapsed_ms, elapse; simpl.
  rewrite Hts, u32_sub_u32.
  replace (clock_ms (hw w) + d - clock_ms (hw w)) with d by lia.
  apply u32_small, Hd.
Qed.

(** C5, as the code has it.  At 30 fps the frame duration is 33 ms.  A
    call made when fewer than 33 ms have elapsed returns false and does
    nothing.  A call made when 33 ms or more (so also 40 ms) have elapsed
    returns true and runs the hook, if any, once; [nextFrame] itself
    writes nothing, so the world after it is the one the hook left, and
    without a hook it is unchanged.  Once the last frame time has been
    set to the current time (which is not done by [nextFrame]), a call
    within the next 10 ms is not due. *)
Theorem nextFrame_30fps (w : World) :
  m_frameDurationMs (engine w) = u8 (1000 ÷ 30) ->
  u8 (1000 ÷ 30) = 33 /\
  (elapsed_ms w < 33 -> nextFrame w = Done false w []) /\
  (33 <= elapsed_ms w ->
   nextFrame w = Done true (hook_world w) (hook_calls w) /\
   (length (hook_calls w) <= 1)%nat /\
   (m_loop (engine w) = None -> hook_world w = w)) /\
  (m_lastFrameTs (engine w) = u32 (clock_ms (hw w)) ->
   forall d, 0 <= d <= 10 ->
             nextFrame (elapse d w) = Done false (elapse d w) []).
Proof.
  intros Hdur.
  assert (H33 : u8 (1000 ÷ 30) = 33) by reflexivity.
  rewrite H33 in Hdur.
  split; [exact H33 | ].
  split.
  { intros Hlt. rewrite nextFrame_unfold, Hdur.
    apply geb_false_iff in Hlt. rewrite Hlt. reflexivity. }
  split.
  { intros Hge. rewrite nextFrame_unfold, Hdur.
    apply geb_true_iff in Hge. rewrite Hge.
    split; [reflexivity | ].
    unfold hook_calls, hook_world.
    destruct (m_loop (engine w)); simpl; split; auto; discriminate. }
  intros Hts d Hd.
  rewrite nextFrame_unfold.
  rewrite (elapsed_after_commit w d Hts) by lia.
  change (m_frameDurationMs (engine (elapse d w)))
    with (m_frameDurationMs (engine w)).
  rewrite Hdur.
  assert (Hlt : (d >=? 33) = false) by (apply geb_false_iff; lia).
  rewrite Hlt. reflexivity.
Qed.

End FramePacing.

(** ** Frame rate *)

Lemma setFrameRate_unfold (fps : Z) (w : World) :
  setFrameRate fps w =
  if fps =? 0 then Crash DivByZero []
  else Done tt (with_engine (set_frameDurationMs (u8 (1000 ÷ fps)))
                  (with_engine (set_fps fps) w)) [].
Proof.
  unfold setFrameRate, bind, modify, crash.
  destruct (fps =? 0); reflexivity.
Qed.

(** For the rates whose period fits in eight bits the stored duration is the
    quotient itself; 30 fps gives 33 ms. *)
Lemma setFrameRate_duration_fits (fps : Z) (w : World) :
  4 <= fps <= 255 ->
  exists w', setFrameRate fps w = Done tt w' [] /\
             m_frameDurationMs (engine w') = 1000 / fps.
Proof.
  intros Hfps. rewrite setFrameRate_unfold.
  destruct (fps =? 0) eqn:Hz; [apply Z.eqb_eq in Hz; lia | ].
  eexists. split; [reflexivity | ]. simpl.
  rewrite Z.quot_div_nonneg by lia.
  apply u8_small. split.
  - apply Z.div_pos; lia.
  - apply Z.div_lt_upper_bound; lia.
Qed.

Lemma setFrameRate_30 (w : World) :
  exists w', setFrameRate 30 w = Done tt w' [] /\
             m_frameDurationMs (engine w') = 33.
Proof. eexists. split; reflexivity. Qed.

(** C3, at the rates that break it.  [setFrameRate(1)] stores 232, not
    1000: the quotient is narrowed to the 8-bit field.  Likewise 2 fps
    stores 244 instead of 500 and 3 fps stores 77 instead of 333. *)
Theorem setFrameRate_low_rates_truncated (w : World) :
  (exists w1, setFrameRate 1 w = Done tt w1 [] /\
              m_frameDurationMs (engine w1) = 232 /\
              m_frameDurationMs (engine w1) <> 1000 / 1) /\
  (exists w2, setFrameRate 2 w = Done tt w2 [] /\
              m_frameDurationMs (engine w2) = 244 /\
              m_frameDurationMs (engine w2) <> 1000 / 2) /\
  (exists w3, setFrameRate 3 w = Done tt w3 [] /\
              m_frameDurationMs (engine w3) = 77 /\
              m_frameDurationMs (engine w3) <> 1000 / 3).
Proof.
  repeat split; eexists; (split; [reflexivity | ]); simpl;
    (split; [reflexivity | discriminate]).
Qed.

(** C6. [setFrameRate fps] completes for every [fps] but zero (where the
    division faults), makes no call, and writes [m_fps] and
    [m_frameDurationMs] only: the last frame time, the three callbacks, the
    cpu load, the keypad pin, the board and the application memory are as
    before.  The elapsed time is therefore unchanged, and the new duration
    is what the next [nextFrame] compares it with. *)
Theorem setFrameRate_frame (fps : Z) (w : World) :
  match setFrameRate fps w with
  | Done _ w' c =>
      fps <> 0 /\ c = [] /\
      m_fps (engine w') = fps /\
      m_frameDurationMs (engine w') = u8 (1000 ÷ fps) /\
      m_lastFrameTs (engine w') = m_lastFrameTs (engine w) /\
      m_onDraw (engine w') = m_onDraw (engine w) /\
      m_loop (engine w') = m_loop (engine w) /\
      m_onButtons (engine w') = m_onButtons (engine w) /\
      m_cpuLoad (engine w') = m_cpuLoad (engine w) /\
      s_zkeypadPin (engine w') = s_zkeypadPin (engine w) /\
      hw w' = hw w /\ app w' = app w /\
      elapsed_ms w' = elapsed_ms w /\
      forall sketch : Sketch,
        exists w'' c',
          nextFrame w' = Done (elapsed_ms w >=? u8 (1000 ÷ fps)) w'' c'
  | Crash e c => fps = 0 /\ e = DivByZero /\ c = []
  end.
Proof.
  rewrite setFrameRate_unfold.
  destruct (fps =? 0) eqn:Hz.
  - apply Z.eqb_eq in Hz. auto.
  - apply Z.eqb_neq in Hz.
    repeat (split; [solve [assumption | reflexivity] | ]).
    intros sketch. rewrite nextFrame_unfold.
    change (elapsed_ms (with_engine (set_frameDurationMs (u8 (1000 ÷ fps)))
                          (with_engine (set_fps fps) w)))
      with (elapsed_ms w).
    simpl m_frameDurationMs.
    destruct (elapsed_ms w >=? u8 (1000 ÷ fps)); eauto.
Qed.

(** ** Null key source *)

Section NullSource.
Context {codes : ButtonCodes} {sketch : Sketch}.

Lemma begin_keeps_onButtons (w w' : World) c :
  begin w = Done tt w' c ->
  m_onButtons (engine w') = m_onButtons (engine w).
Proof. rewrite begin_done. intros Heq. inversion Heq. reflexivity. Qed.

Lemma setFrameRate_keeps_onButtons (fps : Z) (w w' : World) c :
  setFrameRate fps w = Done tt w' c ->
  m_onButtons (engine w') = m_onButtons (engine w).
Proof.
  rewrite setFrameRate_unfold.
  destruct (fps =? 0); [discriminate | ].
  intros Heq. inversion Heq. reflexivity.
Qed.

Lemma connect_then_query_done (w : World) (m : Z) (f : TNanoEngineGetButtons) :
  m_onButtons (engine w) = Some f ->
  (exists b w1 c, pressed m w = Done b w1 c) /\
  (exists b w1 c, notPressed m w = Done b w1 c).
Proof.
  intros Hf.
  destruct (invoke_buttons_total f w) as (s & w1 & c & Hs).
  rewrite <- (call_onButtons_installed f w Hf) in Hs.
  split; do 3 eexists.
  - apply (pressed_done m _ _ _ _ Hs).
  - apply (notPressed_done m _ _ _ _ Hs).
Qed.

(** C8. The key source starts as [nullptr]; neither [begin] nor
    [setFrameRate] installs one; while it is null, [pressed] and
    [notPressed] call through the null pointer, whatever the mask; and
    after any of the three [connect] calls (with a non-null handler) both
    queries complete. *)
Theorem button_query_needs_source :
  m_onButtons engine_init = None /\
  (forall w w' c, begin w = Done tt w' c ->
                  m_onButtons (engine w') = m_onButtons (engine w)) /\
  (forall fps w w' c, setFrameRate fps w = Done tt w' c ->
                      m_onButtons (engine w') = m_onButtons (engine w)) /\
  (forall m w, m_onButtons (engine w) = None ->
               pressed m w = Crash NullCall [] /\
               notPressed m w = Crash NullCall []) /\
  (forall m w h w',
      connectCustomKeys (Some h) w = Done tt w' [] \/
      (exists pin, connectZKeypad pin w = Done tt w' []) \/
      connectArduboyKeys w = Done tt w' [] ->
      (exists b w1 c, pressed m w' = Done b w1 c) /\
      (exists b w1 c, notPressed m w' = Done b w1 c)).
Proof.
  split; [reflexivity | ].
  split; [exact begin_keeps_onButtons | ].
  split.
  { exact setFrameRate_keeps_onButtons. }
  split.
  { intros m w Hnull. unfold pressed, notPressed, bind.
    rewrite (call_onButtons_null w Hnull). split; reflexivity. }
  intros m w h w' [Hc | [[pin Hc] | Hc]]; inversion Hc; subst w'.
  - apply (connect_then_query_done _ m h). reflexivity.
  - apply (connect_then_query_done _ m fn_zkeypadButtons). reflexivity.
  - apply (connect_then_query_done _ m fn_arduboyButtons). reflexivity.
Qed.

End NullSource.

(** ** The Z-keypad decoder *)

Section ZKeypad.
Context {codes : ButtonCodes}.

(** The decoder reads the pin once, makes no call and changes nothing;
    its result is picked by the first threshold the reading is below. *)
Lemma zkeypadButtons_unfold (w : World) :
  zkeypadButtons w =
  Done (let v := analog (hw w) (s_zkeypadPin (engine w)) in
        if v <? 100 then u8 BUTTON_RIGHT
        else if v <? 200 then u8 BUTTON_UP
        else if v <? 400 then u8 BUTTON_DOWN
        else if v <? 600 then u8 BUTTON_LEFT
        else if v <? 800 then u8 BUTTON_A
        else u8 BUTTON_NONE) w [].
Proof.
  unfold zkeypadButtons, bind, gets, analogRead, ret; simpl.
  repeat match goal with
         | |- context [if ?b then _ else _] => destruct b
         end; reflexivity.
Qed.

Lemma single_bit_range (x : Z) : single_bit x = true -> 0 < x < 256.
Proof.
  unfold single_bit. simpl. rewrite !orb_true_iff, !Z.eqb_eq.
  intros H. repeat destruct H as [H | H]; try discriminate; subst x;
    split; reflexivity.
Qed.

Lemma single_bit_lor_distinct (a b : Z) :
  single_bit a = true -> single_bit b = true -> a <> b ->
  single_bit (Z.lor a b) = false.
Proof.
  unfold single_bit. simpl. rewrite !orb_true_iff, !Z.eqb_eq.
  intros Ha Hb Hab.
  repeat destruct Ha as [Ha | Ha]; try discriminate; subst a;
    repeat destruct Hb as [Hb | Hb]; try discriminate; subst b;
    first [reflexivity | exfalso; apply Hab; reflexivity].
Qed.

(** C10. For every reading [v] the decoder returns the one button of
    the first threshold above [v] (100 RIGHT, 200 UP, 400 DOWN, 600 LEFT,
    800 A) and no button from 800 on.  When the constants are a one-bit-
    per-button encoding, the result is never [BUTTON_B] and never the
    union of two different buttons: it is zero or a single bit. *)
Theorem zkeypadButtons_decodes (w : World) :
  let v := analog (hw w) (s_zkeypadPin (engine w)) in
  exists b,
    zkeypadButtons w = Done b w [] /\
    (v < 100 -> b = u8 BUTTON_RIGHT) /\
    (100 <= v < 200 -> b = u8 BUTTON_UP) /\
    (200 <= v < 400 -> b = u8 BUTTON_DOWN) /\
    (400 <= v < 600 -> b = u8 BUTTON_LEFT) /\
    (600 <= v < 800 -> b = u8 BUTTON_A) /\
    (800 <= v -> b = u8 BUTTON_NONE) /\
    (codes_wf ->
     In b [BUTTON_RIGHT; BUTTON_UP; BUTTON_DOWN; BUTTON_LEFT;
           BUTTON_A; BUTTON_NONE] /\
     b <> BUTTON_B /\
     (b = 0 \/ single_bit b = true) /\
     (forall b1 b2,
         In b1 [BUTTON_DOWN; BUTTON_LEFT; BUTTON_RIGHT; BUTTON_UP;
                BUTTON_A; BUTTON_B] ->
         In b2 [BUTTON_DOWN; BUTTON_LEFT; BUTTON_RIGHT; BUTTON_UP;
                BUTTON_A; BUTTON_B] ->
         b1 <> b2 -> b <> Z.lor b1 b2)).
Proof.
  intros v. rewrite zkeypadButtons_unfold. fold v.
  eexists. split; [reflexivity | ].
  cbv zeta.
  assert (Hcases :
    (v < 100 /\ (v <? 100) = true) \/
    (100 <= v < 200 /\ (v <? 100) = false /\ (v <? 200) = true) \/
    (200 <= v < 400 /\ (v <? 100) = false /\ (v <? 200) = false
                    /\ (v <? 400) = true) \/
    (400 <= v < 600 /\ (v <? 100) = false /\ (v <? 200) = false
                    /\ (v <? 400) = false /\ (v <? 600) = true) \/
    (600 <= v < 800 /\ (v <? 100) = false /\ (v <? 200) = false
                    /\ (v <? 400) = false /\ (v <? 600) = false
                    /\ (v <? 800) = true) \/
    (800 <= v /\ (v <? 100) = false /\ (v <? 200) = false
              /\ (v <? 400) = false /\ (v <? 600) = false
              /\ (v <? 800) = false)).
  { rewrite ?Z.ltb_lt, ?Z.ltb_ge. lia. }
  assert (Hwf : codes_wf ->
    forall x, In x [BUTTON_RIGHT; BUTTON_UP; BUTTON_DOWN; BUTTON_LEFT;
                    BUTTON_A; BUTTON_NONE] ->
    u8 x = x /\ x <> BUTTON_B /\ (x = 0 \/ single_bit x = true) /\
    (forall b1 b2,
         In b1 [BUTTON_DOWN; BUTTON_LEFT; BUTTON_RIGHT; BUTTON_UP;
                BUTTON_A; BUTTON_B] ->
         In b2 [BUTTON_DOWN; BUTTON_LEFT; BUTTON_RIGHT; BUTTON_UP;
                BUTTON_A; BUTTON_B] ->
         b1 <> b2 -> x <> Z.lor b1 b2)).
  { intros (Hnone & Hbits & Hdup) x Hx.
    rewrite forallb_forall in Hbits.
    assert (HB : single_bit BUTTON_B = true) by (apply Hbits; simpl; tauto).
    assert (Hx' : x = 0 \/
                  (single_bit x = true /\ x <> BUTTON_B)).
    { simpl in Hx.
      repeat rewrite NoDup_cons_iff in Hdup. simpl in Hdup.
      destruct Hx as [Hx | [Hx | [Hx | [Hx | [Hx | [Hx | []]]]]]];
        subst x; try (left; exact Hnone);
        right; (split; [apply Hbits; simpl; tauto | ]);
        intros Heq; rewrite Heq in Hdup; tauto. }
    assert (Hlor : forall b1 b2,
         In b1 [BUTTON_DOWN; BUTTON_LEFT; BUTTON_RIGHT; BUTTON_UP;
                BUTTON_A; BUTTON_B] ->
         In b2 [BUTTON_DOWN; BUTTON_LEFT; BUTTON_RIGHT; BUTTON_UP;
                BUTTON_A; BUTTON_B] ->
         b1 <> b2 ->
         single_bit (Z.lor b1 b2) = false /\ Z.lor b1 b2 <> 0).
    { intros b1 b2 H1 H2 Hne.
      pose proof (Hbits b1 H1) as S1. pose proof (Hbits b2 H2) as S2.
      split; [apply single_bit_lor_distinct; assumption | ].
      intros Hz. apply Z.lor_eq_0_iff in Hz.
      apply single_bit_range in S1. lia. }
    destruct Hx' as [Hx0 | [Hxs Hxb]].
    - subst x. split; [reflexivity | ].
      split; [apply single_bit_range in HB; lia | ].
      split; [left; reflexivity | ].
      intros b1 b2 H1 H2 Hne Heq.
      destruct (Hlor b1 b2 H1 H2 Hne) as [_ Hnz]. congruence.
    - split; [apply u8_small; apply single_bit_range in Hxs; lia | ].
      split; [exact Hxb | ].
      split; [right; exact Hxs | ].
      intros b1 b2 H1 H2 Hne Heq.
      destruct (Hlor b1 b2 H1 H2 Hne) as [Hns _]. congruence. }
  destruct Hcases as
    [(Hv & E1) | [(Hv & E1 & E2) | [(Hv & E1 & E2 & E3) |
    [(Hv & E1 & E2 & E3 & E4) | [(Hv & E1 & E2 & E3 & E4 & E5) |
     (Hv & E1 & E2 & E3 & E4 & E5)]]]]];
    rewrite ?E1, ?E2, ?E3, ?E4, ?E5;
    (repeat (split; [first [reflexivity | intros; exfalso; lia] | ]));
    intros Hcodes;
    match goal with
    | |- In (u8 ?x) _ /\ _ =>
        assert (Hin : In x [BUTTON_RIGHT; BUTTON_UP; BUTTON_DOWN;
                            BUTTON_LEFT; BUTTON_A; BUTTON_NONE])
          by (simpl; tauto);
        destruct (Hwf Hcodes x Hin) as (Hu & Hb & Hs & Hl);
        rewrite Hu; auto
    end.
Qed.

End ZKeypad.

(** ** Block addressing on the ST7735 *)

Section Blocks.
Context {encoder : CommandEncoder}.

Lemma resolve_width_zero (g : Geometry) (x : Z) :
  resolve_width g x 0 = width g - x.
Proof. unfold resolve_width. simpl. apply Z.min_id. Qed.

Lemma resolve_width_rest (g : Geometry) (x : Z) :
  resolve_width g x (width g - x) = width g - x.
Proof.
  unfold resolve_width.
  destruct (width g - x =? 0); apply Z.min_id.
Qed.

(** Once a window is open, any number of [nextBlock] calls leaves the
    interface as it is. *)
Lemma nextBlocks_open (n : nat) (i : InterfaceST7735) (win : Window) :
  window i = Some win ->
  nextBlocks n (Opened i) = Opened i.
Proof.
  intros Hopen. induction n as [ | n IH]; simpl.
  - reflexivity.
  - unfold nextBlock. rewrite Hopen. destruct n; exact IH.
Qed.

(** C4. For [x] inside the surface, [startBlock x y 0] resolves the
    width to [width - x] and is the same call as
    [startBlock x y (width - x)]: same result, same bytes on the bus, and
    the same state after any number of [nextBlock] calls.  With no window
    open and [y] inside the surface the call opens the window
    [(x, y, width - x)], and that width is still the window's width after
    any number of [nextBlock] calls. *)
Theorem startBlock_zero_width (i : InterfaceST7735) (x y : Z) :
  0 <= x < width (m_base i) ->
  resolve_width (m_base i) x 0 = width (m_base i) - x /\
  startBlock x y 0 i = startBlock x y (width (m_base i) - x) i /\
  (forall n, nextBlocks n (startBlock x y 0 i) =
             nextBlocks n (startBlock x y (width (m_base i) - x) i)) /\
  (window i = None -> 0 <= y < height (m_base i) ->
   exists i',
     startBlock x y 0 i = Opened i' /\
     window i' = Some (mkWindow x y (width (m_base i) - x)) /\
     forall n, exists i'',
         nextBlocks n (Opened i') = Opened i'' /\
         window i'' = Some (mkWindow x y (width (m_base i) - x))).
Proof.
  intros Hx.
  assert (Hsame : startBlock x y 0 i =
                  startBlock x y (width (m_base i) - x) i).
  { unfold startBlock.
    rewrite resolve_width_zero, resolve_width_rest. reflexivity. }
  split; [apply resolve_width_zero | ].
  split; [exact Hsame | ].
  split; [intros n; rewrite Hsame; reflexivity | ].
  intros Hclosed Hy. unfold startBlock. rewrite Hclosed.
  assert (Hin : (0 <=? x) && (x <? width (m_base i))
                && (0 <=? y) && (y <? height (m_base i)) = true).
  { rewrite !andb_true_iff, !Z.leb_le, !Z.ltb_lt. lia. }
  rewrite Hin, resolve_width_zero.
  eexists. split; [reflexivity | ].
  split; [reflexivity | ].
  intros n. eexists. split.
  - apply nextBlocks_open with (win := mkWindow x y (width (m_base i) - x)).
    reflexivity.
  - reflexivity.
Qed.

(** C7. With a window open, [nextBlock] succeeds and returns the
    interface it was given: nothing is added to the bus, and the window,
    the rotation, the geometry and the data/command pin are the same. *)
Theorem nextBlock_noop (i : InterfaceST7735) (win : Window) :
  window i = Some win ->
  exists i',
    nextBlock i = Opened i' /\
    bus i' = bus i /\
    window i' = Some win /\
    m_rotation i' = m_rotation i /\
    m_base i' = m_base i /\
    m_dc i' = m_dc i /\
    i' = i.
Proof.
  intros Hopen. exists i. unfold nextBlock. rewrite Hopen.
  repeat split.
Qed.

End Blocks.

(** * The model on concrete inputs *)

(** C5, as the document states it, fails.  Power up and [begin] at time
    0 with the default 30 fps and no hook.  A call at 40 ms is due; it
    leaves the last frame time at 0, not at 40.  A second call 5 ms later
    is due again. *)
Lemma nextFrame_30fps_counterexample :
  exists w0 : World,
    begin (power_up 0 1023) = Done tt w0 [] /\
    m_frameDurationMs (engine w0) = 33 /\
    let w := elapse 40 w0 in
    elapsed_ms w = 40 /\
    @nextFrame sample_sketch w = Done true w [] /\
    m_lastFrameTs (engine w) = 0 /\
    m_lastFrameTs (engine w) <> u32 (clock_ms (hw w)) /\
    @nextFrame sample_sketch (elapse 5 w) = Done true (elapse 5 w) [].
Proof.
  eexists. split; [reflexivity | ].
  split; [reflexivity | ].
  cbv zeta.
  split; [reflexivity | ].
  split; [reflexivity | ].
  split; [reflexivity | ].
  split; [discriminate | reflexivity].
Qed.

(** The handler reports mask 5 (bits 0 and 2).  Mask 4 is covered; mask 6
    has one bit pressed and one not, so neither query holds; mask 2 is
    entirely released. *)
Example pressed_samples :
  @pressed sample_codes sample_sketch 4 keyed_world
    = Done true keyed_world [CallButtons (fn_custom 5%nat)] /\
  @pressed sample_codes sample_sketch 6 keyed_world
    = Done false keyed_world [CallButtons (fn_custom 5%nat)] /\
  @notPressed sample_codes sample_sketch 6 keyed_world
    = Done false keyed_world [CallButtons (fn_custom 5%nat)] /\
  @notPressed sample_codes sample_sketch 2 keyed_world
    = Done true keyed_world [CallButtons (fn_custom 5%nat)].
Proof. repeat split. Qed.

(** The keypad on pin 0 at a few readings. *)
Example zkeypad_samples :
  @zkeypadButtons sample_codes (power_up 0 0) = Done 4 (power_up 0 0) [] /\
  @zkeypadButtons sample_codes (power_up 0 99) = Done 4 (power_up 0 99) [] /\
  @zkeypadButtons sample_codes (power_up 0 100) = Done 8 (power_up 0 100) [] /\
  @zkeypadButtons sample_codes (power_up 0 399) = Done 1 (power_up 0 399) [] /\
  @zkeypadButtons sample_codes (power_up 0 599) = Done 2 (power_up 0 599) [] /\
  @zkeypadButtons sample_codes (power_up 0 799) = Done 16 (power_up 0 799) [] /\
  @zkeypadButtons sample_codes (power_up 0 800) = Done 0 (power_up 0 800) [] /\
  @zkeypadButtons sample_codes (power_up 0 (-3)) = Done 4 (power_up 0 (-3)) [].
Proof. repeat split. Qed.

(** On a target without the Arduboy ports no button is ever reported. *)
Example arduboy_sample :
  @arduboyButtons sample_sketch (power_up 0 0) = Done 0 (power_up 0 0) [].
Proof. reflexivity. Qed.

(** On the Arduboy, all port bits low reads as all six buttons down. *)
Example arduboy_all_down :
  @arduboyButtons (mkSketch (fun _ w => w) (fun _ w => (0, w)) true)
                  (mkWorld engine_init (mkHardware 0 (fun _ => 0) 0 0 0)
                           (fun _ => 0))
  = Done 63 (mkWorld engine_init (mkHardware 0 (fun _ => 0) 0 0 0)
                     (fun _ => 0)) [].
Proof. reflexivity. Qed.

Lemma sample_codes_wf : @codes_wf sample_codes.
Proof.
  split; [reflexivity | ].
  split; [reflexivity | ].
  repeat constructor; simpl; intuition discriminate.
Qed.

Lemma pressed_notPressed_bits_witness :
  m_onButtons (engine keyed_world) = Some (fn_custom 5%nat) /\
  exists s w1 c,
    @invoke_buttons sample_codes sample_sketch (fn_custom 5%nat) keyed_world
      = Done s w1 c /\
    @pressed sample_codes sample_sketch 6 keyed_world
      = Done (Z.land s 6 =? 6) w1 c /\
    @notPressed sample_codes sample_sketch 6 keyed_world
      = Done (Z.land s 6 =? 0) w1 c.
Proof.
  split; [reflexivity | ].
  destruct (@pressed_notPressed_bits sample_codes sample_sketch 6 keyed_world
              (fn_custom 5%nat) eq_refl)
    as (s & w1 & c & Hs & Hp & Hn & _).
  exists s, w1, c. auto.
Defined.

Lemma nextFrame_deadline_witness :
  exists b w' c,
    @nextFrame sample_sketch hooked_world = Done b w' c /\
    (b = true <->
     m_frameDurationMs (engine hooked_world) <= elapsed_ms hooked_world).
Proof.
  destruct (@nextFrame_deadline sample_sketch hooked_world)
    as (b & w' & c & Hrun & Hb & _).
  exists b, w', c. auto.
Defined.

Lemma nextFrame_wraparound_witness :
  clock_ms (hw wrapped_world) = 2 ^ 32 + 30 /\
  m_lastFrameTs (engine wrapped_world) = u32 (2 ^ 32 - 10) /\
  0 <= (2 ^ 32 + 30) - (2 ^ 32 - 10) < 2 ^ 32 /\
  elapsed_ms wrapped_world = (2 ^ 32 + 30) - (2 ^ 32 - 10).
Proof.
  split; [reflexivity | ].
  split; [reflexivity | ].
  split; [vm_compute; split; [discriminate | reflexivity] | ].
  apply (@nextFrame_wraparound sample_sketch wrapped_world
           (2 ^ 32 - 10) (2 ^ 32 + 30)).
  - reflexivity.
  - reflexivity.
  - vm_compute. split; [discriminate | reflexivity].
Defined.

Lemma nextFrame_30fps_witness :
  m_frameDurationMs (engine hooked_world) = u8 (1000 ÷ 30) /\
  (33 <= elapsed_ms hooked_world ->
   @nextFrame sample_sketch hooked_world
   = Done true (@hook_world sample_sketch hooked_world)
          (hook_calls hooked_world) /\
   (length (hook_calls hooked_world) <= 1)%nat /\
   (m_loop (engine hooked_world) = None ->
    @hook_world sample_sketch hooked_world = hooked_world)).
Proof.
  split; [reflexivity | ].
  apply (@nextFrame_30fps sample_sketch hooked_world). reflexivity.
Defined.

Lemma button_query_needs_source_witness :
  m_onButtons (engine (power_up 0 0)) = None /\
  @pressed sample_codes sample_sketch 1 (power_up 0 0) = Crash NullCall [] /\
  @notPressed sample_codes sample_sketch 1 (power_up 0 0) = Crash NullCall [].
Proof.
  split; [reflexivity | ].
  destruct (@button_query_needs_source sample_codes sample_sketch)
    as (_ & _ & _ & Hnull & _).
  apply (Hnull 1 (power_up 0 0)). reflexivity.
Defined.

Lemma zkeypadButtons_decodes_witness :
  100 <= analog (hw (power_up 0 150)) (s_zkeypadPin (engine (power_up 0 150)))
      < 200 /\
  @codes_wf sample_codes /\
  exists b,
    @zkeypadButtons sample_codes (power_up 0 150) = Done b (power_up 0 150) [] /\
    b = u8 (@BUTTON_UP sample_codes) /\
    b <> @BUTTON_B sample_codes.
Proof.
  split; [simpl; lia | ].
  split; [exact sample_codes_wf | ].
  destruct (@zkeypadButtons_decodes sample_codes (power_up 0 150))
    as (b & Hrun & _ & Hup & _ & _ & _ & _ & Hwf).
  exists b.
  split; [exact Hrun | ].
  split; [apply Hup; simpl; lia | ].
  apply (Hwf sample_codes_wf).
Defined.

Lemma startBlock_zero_width_witness :
  0 <= 100 < width (m_base sample_interface) /\
  @startBlock sample_encoder 100 20 0 sample_interface
  = @startBlock sample_encoder 100 20 28 sample_interface.
Proof.
  split; [simpl; lia | ].
  apply (@startBlock_zero_width sample_encoder sample_interface 100 20).
  simpl. lia.
Defined.

Lemma nextBlock_noop_witness :
  window sample_open_interface = Some (mkWindow 8 16 32) /\
  exists i',
    nextBlock sample_open_interface = Opened i' /\
    bus i' = bus sample_open_interface.
Proof.
  split; [reflexivity | ].
  destruct (nextBlock_noop sample_open_interface (mkWindow 8 16 32) eq_refl)
    as (i' & Hrun & Hbus & _).
  exists i'. auto.
Defined.

(** * Further properties of the engine *)

(** ** Time and the deadline test *)

Section Timing.
Context {sketch : Sketch}.

Lemma elapsed_elapse (w : World) (d : Z) :
  elapsed_ms (elapse d w) = u32 (elapsed_ms w + d).
Proof.
  change (elapsed_ms (elapse d w))
    with (u32 (u32 (clock_ms (hw w) + d) - m_lastFrameTs (engine w))).
  unfold elapsed_ms, u32.
  rewrite Zminus_mod_idemp_l, Zplus_mod_idemp_l.
  replace (clock_ms (hw w) mod 2 ^ 32 - m_lastFrameTs (engine w) + d)
    with (clock_ms (hw w) mod 2 ^ 32 + (d - m_lastFrameTs (engine w))) by lia.
  rewrite Zplus_mod_idemp_l. f_equal. lia.
Qed.

Lemma nextFrame_answer (w : World) :
  exists w' c,
    nextFrame w = Done (elapsed_ms w >=? m_frameDurationMs (engine w)) w' c.
Proof.
  rewrite nextFrame_unfold.
  destruct (elapsed_ms w >=? m_frameDurationMs (engine w)); eauto.
Qed.

(** X1. [begin] starts the frame clock: a [nextFrame] made [d] ms after
    [begin] (less than 2^32 ms) is due exactly when [d] has reached the
    frame duration, wherever the millisecond counter stood at [begin]. *)
Theorem begin_then_nextFrame (w : World) (d : Z) :
  0 <= d < 2 ^ 32 ->
  exists w0,
    begin w = Done tt w0 [] /\
    elapsed_ms (elapse d w0) = d /\
    exists w' c,
      nextFrame (elapse d w0)
      = Done (d >=? m_frameDurationMs (engine w)) w' c.
Proof.
  intros Hd. rewrite begin_done. eexists. split; [reflexivity | ].
  assert (Hel : elapsed_ms
                  (elapse d (with_engine
                               (set_lastFrameTs (u32 (clock_ms (hw w)))) w)) = d)
    by (apply elapsed_after_commit; [reflexivity | exact Hd]).
  split; [exact Hel | ].
  destruct (nextFrame_answer
              (elapse d (with_engine
                           (set_lastFrameTs (u32 (clock_ms (hw w)))) w)))
    as (w' & c & Hrun).
  rewrite Hel in Hrun. exists w', c. exact Hrun.
Qed.

(** X2. The deadline test sees the clock modulo 2^32 ms only: shifting
    the clock by any multiple of 2^32 ms changes neither the elapsed time
    nor the answer of [nextFrame] nor the calls it makes.  So a frame whose
    time is never committed stops being due when the counter comes round:
    with a non-zero frame duration, [2^32 - elapsed] ms later [nextFrame]
    answers false and calls nothing. *)
Theorem nextFrame_clock_period (w : World) (k : Z) :
  elapsed_ms (elapse (k * 2 ^ 32) w) = elapsed_ms w /\
  (exists b c w1 w2,
      nextFrame w = Done b w1 c /\
      nextFrame (elapse (k * 2 ^ 32) w) = Done b w2 c) /\
  (0 < m_frameDurationMs (engine w) ->
   nextFrame (elapse (2 ^ 32 - elapsed_ms w) w)
   = Done false (elapse (2 ^ 32 - elapsed_ms w) w) []).
Proof.
  assert (Hper : elapsed_ms (elapse (k * 2 ^ 32) w) = elapsed_ms w).
  { rewrite elapsed_elapse. unfold u32. rewrite Z.mod_add by discriminate.
    unfold elapsed_ms, u32. apply Z.mod_mod. discriminate. }
  split; [exact Hper | ].
  split.
  - rewrite !nextFrame_unfold, Hper.
    change (m_frameDurationMs (engine (elapse (k * 2 ^ 32) w)))
      with (m_frameDurationMs (engine w)).
    change (hook_calls (elapse (k * 2 ^ 32) w)) with (hook_calls w).
    destruct (elapsed_ms w >=? m_frameDurationMs (engine w)); eauto 6.
  - intros Hdur. rewrite nextFrame_unfold, elapsed_elapse.
    replace (elapsed_ms w + (2 ^ 32 - elapsed_ms w)) with (1 * 2 ^ 32) by lia.
    unfold u32 at 1. rewrite Z.mod_mul by discriminate.
    change (m_frameDurationMs (engine (elapse (2 ^ 32 - elapsed_ms w) w)))
      with (m_frameDurationMs (engine w)).
    assert (Hlt : (0 >=? m_frameDurationMs (engine w)) = false)
      by (apply geb_false_iff; exact Hdur).
    rewrite Hlt. reflexivity.
Qed.


(** For every rate the parameter type admits but zero, the stored duration is
    between 3 and 250 ms and never longer than the nominal period. *)
Lemma frame_duration_bounds (fps : Z) :
  1 <= fps <= 255 ->
  3 <= u8 (1000 ÷ fps) <= 250 /\ u8 (1000 ÷ fps) * fps <= 1000.
Proof.
  intros Hfps.
  assert (Hcases : fps = 1 \/ fps = 2 \/ fps = 3 \/ 4 <= fps) by lia.
  destruct Hcases as [-> | [-> | [-> | Hbig]]];
    try (vm_compute; repeat split; discriminate).
  rewrite Z.quot_div_nonneg by lia.
  assert (Hlo : 3 <= 1000 / fps) by (apply Z.div_le_lower_bound; lia).
  assert (Hhi : 1000 / fps <= 250) by (apply Z.div_le_upper_bound; lia).
  rewrite u8_small by lia.
  split; [lia | ].
  rewrite Z.mul_comm. apply Z.mul_div_le. lia.
Qed.

(** X4. Whatever rate from 1 to 255 is set, the frame duration ends up
    between 3 and 250 ms.  Hence a [nextFrame] with no time elapsed (as
    right after [begin]) is never due, and one with 250 ms or more elapsed
    is always due. *)
Theorem setFrameRate_duration_range (fps : Z) (w : World) :
  1 <= fps <= 255 ->
  exists w',
    setFrameRate fps w = Done tt w' [] /\
    3 <= m_frameDurationMs (engine w') <= 250 /\
    (forall w1, engine w1 = engine w' -> elapsed_ms w1 = 0 ->
                nextFrame w1 = Done false w1 []) /\
    (forall w1, engine w1 = engine w' -> 250 <= elapsed_ms w1 ->
                nextFrame w1 = Done true (hook_world w1) (hook_calls w1)).
Proof.
  intros Hfps. rewrite setFrameRate_unfold.
  destruct (fps =? 0) eqn:Hz; [apply Z.eqb_eq in Hz; lia | ].
  destruct (frame_duration_bounds fps Hfps) as [Hrange _].
  eexists. split; [reflexivity | ].
  split; [exact Hrange | ].
  split; intros w1 Heng Hel; rewrite nextFrame_unfold, Heng; simpl.
  - assert (Hlt : (elapsed_ms w1 >=? u8 (1000 ÷ fps)) = false)
      by (apply geb_false_iff; lia).
    rewrite Hlt. reflexivity.
  - assert (Hge : (elapsed_ms w1 >=? u8 (1000 ÷ fps)) = true)
      by (apply geb_true_iff; lia).
    rewrite Hge. reflexivity.
Qed.

(** X5. The engine never paces slower than asked: for every rate from 1
    to 255 the stored duration times the rate is at most 1000 ms, and from
    4 fps up it misses the nominal period by less than one millisecond. *)
Theorem setFrameRate_not_slower (fps : Z) (w : World) :
  1 <= fps <= 255 ->
  exists w',
    setFrameRate fps w = Done tt w' [] /\
    m_frameDurationMs (engine w') * fps <= 1000 /\
    (4 <= fps -> 1000 < (m_frameDurationMs (engine w') + 1) * fps).
Proof.
  intros Hfps. rewrite setFrameRate_unfold.
  destruct (fps =? 0) eqn:Hz; [apply Z.eqb_eq in Hz; lia | ].
  destruct (frame_duration_bounds fps Hfps) as [_ Hmul].
  eexists. split; [reflexivity | ]. simpl.
  split; [exact Hmul | ].
  intros Hbig.
  rewrite Z.quot_div_nonneg by lia.
  assert (Hlo : 0 <= 1000 / fps) by (apply Z.div_pos; lia).
  assert (Hhi : 1000 / fps <= 250) by (apply Z.div_le_upper_bound; lia).
  rewrite u8_small by lia.
  pose proof (Z.mul_succ_div_gt 1000 fps) as Hgt.
  unfold Z.succ in Hgt. rewrite Z.mul_comm. apply Hgt. lia.
Qed.

(** X6. The last rate set wins: setting a rate and then another leaves
    exactly the state that setting the second alone leaves. *)
Theorem setFrameRate_twice (a b : Z) (w : World) :
  a <> 0 ->
  bind (setFrameRate a) (fun _ => setFrameRate b) w = setFrameRate b w.
Proof.
  intros Ha. unfold bind. rewrite (setFrameRate_unfold a).
  apply Z.eqb_neq in Ha. rewrite Ha.
  rewrite !setFrameRate_unfold.
  destruct (b =? 0); reflexivity.
Qed.

End Timing.

(** ** Button queries *)

Lemma land_pow2 (s k : Z) :
  0 <= k ->
  Z.land s (2 ^ k) = if Z.testbit s k then 2 ^ k else 0.
Proof.
  intros Hk. apply Z.bits_inj'. intros n Hn.
  rewrite Z.land_spec, Z.pow2_bits_eqb by exact Hk.
  destruct (Z.eqb_spec k n) as [-> | Hne].
  - destruct (Z.testbit s n);
      [rewrite Z.pow2_bits_true by exact Hn | rewrite Z.bits_0]; reflexivity.
  - rewrite andb_false_r.
    destruct (Z.testbit s k);
      [rewrite Z.pow2_bits_false by (try exact Hne; lia) | rewrite Z.bits_0];
      reflexivity.
Qed.

Lemma single_bit_pow2 (m : Z) :
  single_bit m = true -> exists k, 0 <= k < 8 /\ m = 2 ^ k.
Proof.
  unfold single_bit. simpl. rewrite !orb_true_iff, !Z.eqb_eq.
  intros H. repeat destruct H as [H | H]; try discriminate; subst m;
    first [ exists 0; split; [lia | reflexivity]
          | exists 1; split; [lia | reflexivity]
          | exists 2; split; [lia | reflexivity]
          | exists 3; split; [lia | reflexivity]
          | exists 4; split; [lia | reflexivity]
          | exists 5; split; [lia | reflexivity]
          | exists 6; split; [lia | reflexivity]
          | exists 7; split; [lia | reflexivity] ].
Qed.

(** For a one-bit mask the two tests are each other's negation. *)
Lemma one_bit_tests_negate (s m : Z) :
  single_bit m = true ->
  (Z.land s m =? 0) = negb (Z.land s m =? m).
Proof.
  intros Hm. pose proof (single_bit_range m Hm) as Hpos.
  destruct (single_bit_pow2 m Hm) as (k & Hk & ->).
  rewrite land_pow2 by lia.
  destruct (Z.testbit s k).
  - rewrite Z.eqb_refl. change (negb true) with false.
    apply Z.eqb_neq. lia.
  - change (0 =? 0) with true. symmetry.
    apply negb_true_iff, Z.eqb_neq. lia.
Qed.

Section Queries.
Context {codes : ButtonCodes} {sketch : Sketch}.

Lemma queries_installed (m : Z) (w : World) (f : TNanoEngineGetButtons) s w1 c :
  m_onButtons (engine w) = Some f ->
  invoke_buttons f w = Done s w1 c ->
  pressed m w = Done (Z.land s m =? m) w1 c /\
  notPressed m w = Done (Z.land s m =? 0) w1 c.
Proof.
  intros Hf Hs. rewrite <- (call_onButtons_installed f w Hf) in Hs.
  split; [apply pressed_done | apply notPressed_done]; exact Hs.
Qed.

(** X7. For a mask of one button (one bit), [notPressed] is exactly the
    negation of [pressed] on the same state. *)
Theorem notPressed_negates_pressed_one_bit
        (m : Z) (w : World) (f : TNanoEngineGetButtons) :
  m_onButtons (engine w) = Some f ->
  single_bit m = true ->
  exists b w1 c,
    pressed m w = Done b w1 c /\
    notPressed m w = Done (negb b) w1 c.
Proof.
  intros Hf Hm.
  destruct (invoke_buttons_total f w) as (s & w1 & c & Hs).
  destruct (queries_installed m w f s w1 c Hf Hs) as [Hp Hn].
  exists (Z.land s m =? m), w1, c.
  split; [exact Hp | ].
  rewrite Hn, (one_bit_tests_negate s m Hm). reflexivity.
Qed.

(** X8. The empty mask: [pressed 0] and [notPressed 0] are both true
    whatever the key source reports.  It is the only mask for which both
    can be true. *)
Theorem empty_mask_queries (w : World) (f : TNanoEngineGetButtons) :
  m_onButtons (engine w) = Some f ->
  exists w1 c,
    pressed 0 w = Done true w1 c /\
    notPressed 0 w = Done true w1 c /\
    forall m, pressed m w = Done true w1 c ->
              notPressed m w = Done true w1 c ->
              m = 0.
Proof.
  intros Hf.
  destruct (invoke_buttons_total f w) as (s & w1 & c & Hs).
  exists w1, c.
  destruct (queries_installed 0 w f s w1 c Hf Hs) as [Hp Hn].
  rewrite Z.land_0_r in Hp, Hn.
  split; [exact Hp | ].
  split; [exact Hn | ].
  intros m Hpm Hnm.
  destruct (queries_installed m w f s w1 c Hf Hs) as [Hp' Hn'].
  rewrite Hp' in Hpm. rewrite Hn' in Hnm.
  inversion Hpm as [Hpe]. inversion Hnm as [Hne].
  apply Z.eqb_eq in Hpe, Hne. congruence.
Qed.

Lemma arduboyButtons_pure (w : World) :
  exists s, arduboyButtons w = Done s w [].
Proof.
  unfold arduboyButtons. destruct AVR_ATmega32U4; eexists; reflexivity.
Qed.

(** X9. Sampling through a built-in decoder is a pure read: with the
    Z-keypad or the Arduboy decoder installed, [pressed] and [notPressed]
    leave the whole machine as it was and make one call, to the decoder. *)
Theorem builtin_queries_pure (m : Z) (w : World) (f : TNanoEngineGetButtons) :
  f = fn_zkeypadButtons \/ f = fn_arduboyButtons ->
  m_onButtons (engine w) = Some f ->
  exists bp bn,
    pressed m w = Done bp w [CallButtons f] /\
    notPressed m w = Done bn w [CallButtons f].
Proof.
  intros Hbuiltin Hf.
  assert (Hs : exists s, invoke_buttons f w = Done s w [CallButtons f]).
  { destruct Hbuiltin as [-> | ->]; unfold invoke_buttons.
    - rewrite zkeypadButtons_unfold. eexists. reflexivity.
    - destruct (arduboyButtons_pure w) as (s & ->). eexists. reflexivity. }
  destruct Hs as (s & Hs).
  destruct (queries_installed m w f s w _ Hf Hs) as [Hp Hn].
  eauto.
Qed.

(** X10. On a target other than the ATmega32U4 the Arduboy decoder
    reports nothing: once it is connected, [notPressed] is true for every
    mask and [pressed] only for the empty one. *)
Theorem arduboy_keys_off_target (m : Z) (w : World) :
  AVR_ATmega32U4 = false ->
  exists w',
    connectArduboyKeys w = Done tt w' [] /\
    notPressed m w' = Done true w' [CallButtons fn_arduboyButtons] /\
    pressed m w' = Done (0 =? m) w' [CallButtons fn_arduboyButtons].
Proof.
  intros Htarget. eexists. split; [reflexivity | ].
  match goal with |- notPressed m ?w1 = _ /\ _ => set (w' := w1) end.
  assert (Hs : invoke_buttons fn_arduboyButtons w'
               = Done 0 w' [CallButtons fn_arduboyButtons]).
  { unfold invoke_buttons, arduboyButtons. rewrite Htarget. reflexivity. }
  destruct (queries_installed m w' fn_arduboyButtons 0 w' _ eq_refl Hs)
    as [Hp Hn].
  rewrite Z.land_0_l in Hp, Hn. split; [exact Hn | exact Hp].
Qed.

(** X11. A null handler uninstalls the key source: after
    [connectCustomKeys nullptr], whatever was connected before, every query
    is again a call through a null pointer. *)
Theorem connectCustomKeys_null (m : Z) (w : World) :
  exists w',
    connectCustomKeys None w = Done tt w' [] /\
    pressed m w' = Crash NullCall [] /\
    notPressed m w' = Crash NullCall [] /\
    forall pin w0, connectZKeypad pin w = Done tt w0 [] ->
      exists w1, connectCustomKeys None w0 = Done tt w1 [] /\
                 pressed m w1 = Crash NullCall [] /\
                 notPressed m w1 = Crash NullCall [].
Proof.
  eexists. split; [reflexivity | ].
  split; [ | split].
  - unfold pressed, bind. rewrite call_onButtons_null; reflexivity.
  - unfold notPressed, bind. rewrite call_onButtons_null; reflexivity.
  - intros pin w0 Hc. inversion Hc. subst w0.
    eexists. split; [reflexivity | ].
    split.
    + unfold pressed, bind. rewrite call_onButtons_null; reflexivity.
    + unfold notPressed, bind. rewrite call_onButtons_null; reflexivity.
Qed.

Lemma nextFrame_same_pacing (w w' : World) :
  m_frameDurationMs (engine w') = m_frameDurationMs (engine w) ->
  m_lastFrameTs (engine w') = m_lastFrameTs (engine w) ->
  m_loop (engine w') = m_loop (engine w) ->
  hw w' = hw w ->
  exists b c w1 w2,
    nextFrame w = Done b w1 c /\ nextFrame w' = Done b w2 c.
Proof.
  intros Hdur Hts Hloop Hhw.
  rewrite !nextFrame_unfold. unfold elapsed_ms, hook_calls.
  rewrite Hdur, Hts, Hloop, Hhw.
  destruct (u32 (u32 (clock_ms (hw w)) - m_lastFrameTs (engine w))
            >=? m_frameDurationMs (engine w)); eauto 6.
Qed.

(** X12. Connecting a key source never disturbs frame pacing: each of
    the three [connect] calls keeps the rate, the frame duration, the last
    frame time, the hook and the draw callback, the board and the
    application memory, so [nextFrame] answers and calls what it would have
    before. *)
Theorem connect_keeps_pacing (w w' : World)
        (handler : option TNanoEngineGetButtons) (pin : Z) :
  connectCustomKeys handler w = Done tt w' [] \/
  connectZKeypad pin w = Done tt w' [] \/
  connectArduboyKeys w = Done tt w' [] ->
  m_fps (engine w') = m_fps (engine w) /\
  m_frameDurationMs (engine w') = m_frameDurationMs (engine w) /\
  m_lastFrameTs (engine w') = m_lastFrameTs (engine w) /\
  m_loop (engine w') = m_loop (engine w) /\
  m_onDraw (engine w') = m_onDraw (engine w) /\
  m_cpuLoad (engine w') = m_cpuLoad (engine w) /\
  hw w' = hw w /\ app w' = app w /\
  exists b c w1 w2,
    nextFrame w = Done b w1 c /\ nextFrame w' = Done b w2 c.
Proof.
  intros [Hc | [Hc | Hc]]; inversion Hc; subst w';
    (repeat (split; [reflexivity | ]));
    apply nextFrame_same_pacing; reflexivity.
Qed.

End Queries.

(** ** The Z-keypad behind the queries *)

Lemma NoDup_six (a b c d e f : Z) :
  NoDup [a; b; c; d; e; f] ->
  a <> b /\ a <> c /\ a <> d /\ a <> e /\ a <> f /\
  b <> c /\ b <> d /\ b <> e /\ b <> f /\
  c <> d /\ c <> e /\ c <> f /\
  d <> e /\ d <> f /\
  e <> f.
Proof.
  intros Hdup. repeat rewrite NoDup_cons_iff in Hdup. simpl in Hdup.
  repeat split; intros Heq; subst; intuition auto.
Qed.

(** Against a one-bit mask, a state of at most one bit passes [pressed]
    exactly when it is the mask. *)
Lemma one_button_state_test (s m : Z) :
  s = 0 \/ single_bit s = true ->
  single_bit m = true ->
  (Z.land s m =? m) = (s =? m).
Proof.
  intros [-> | Hs] Hm.
  - rewrite Z.land_0_l. reflexivity.
  - revert Hs Hm. unfold single_bit. simpl.
    rewrite !orb_true_iff, !Z.eqb_eq.
    intros Hs Hm.
    repeat destruct Hs as [Hs | Hs]; try discriminate; subst s;
      repeat destruct Hm as [Hm | Hm]; try discriminate; subst m;
      reflexivity.
Qed.

(** A state of at most one bit never covers two different buttons. *)
Lemma one_button_state_no_chord (s b1 b2 : Z) :
  s = 0 \/ single_bit s = true ->
  single_bit b1 = true -> single_bit b2 = true -> b1 <> b2 ->
  (Z.land s (Z.lor b1 b2) =? Z.lor b1 b2) = false.
Proof.
  intros Hs H1 H2 Hne.
  assert (Hs' : s = 0 \/ s = 1 \/ s = 2 \/ s = 4 \/ s = 8 \/ s = 16 \/
                s = 32 \/ s = 64 \/ s = 128).
  { destruct Hs as [-> | Hs]; [left; reflexivity | right].
    revert Hs. unfold single_bit. simpl.
    rewrite !orb_true_iff, !Z.eqb_eq. intuition discriminate. }
  clear Hs. revert H1 H2. unfold single_bit. simpl.
  rewrite !orb_true_iff, !Z.eqb_eq. intros H1 H2.
  repeat destruct H1 as [H1 | H1]; try discriminate; subst b1;
    repeat destruct H2 as [H2 | H2]; try discriminate; subst b2;
    try (exfalso; apply Hne; reflexivity);
    repeat destruct Hs' as [Hs' | Hs']; subst s; reflexivity.
Qed.

Section ZKeypadQueries.
Context {codes : ButtonCodes} {sketch : Sketch}.

(** With well-formed codes the decoder's result is the named constant
    itself, and it is zero or one bit. *)
Lemma zkeypad_connected_sample (pin : Z) (w : World) :
  codes_wf ->
  let w' := with_engine (set_onButtons (Some fn_zkeypadButtons))
              (with_engine (set_zkeypadPin pin) w) in
  let v := analog (hw w) pin in
  exists s,
    invoke_buttons fn_zkeypadButtons w'
    = Done s w' [CallButtons fn_zkeypadButtons] /\
    (s = 0 \/ single_bit s = true) /\
    s = (if v <? 100 then BUTTON_RIGHT
         else if v <? 200 then BUTTON_UP
         else if v <? 400 then BUTTON_DOWN
         else if v <? 600 then BUTTON_LEFT
         else if v <? 800 then BUTTON_A
         else BUTTON_NONE).
Proof.
  intros (Hnone & Hbits & _) w' v.
  rewrite forallb_forall in Hbits.
  assert (HD : single_bit BUTTON_DOWN = true) by (apply Hbits; simpl; tauto).
  assert (HL : single_bit BUTTON_LEFT = true) by (apply Hbits; simpl; tauto).
  assert (HR : single_bit BUTTON_RIGHT = true) by (apply Hbits; simpl; tauto).
  assert (HU : single_bit BUTTON_UP = true) by (apply Hbits; simpl; tauto).
  assert (HA : single_bit BUTTON_A = true) by (apply Hbits; simpl; tauto).
  eexists. split.
  { unfold invoke_buttons. rewrite zkeypadButtons_unfold. reflexivity. }
  change (analog (hw w') (s_zkeypadPin (engine w'))) with v.
  cbv zeta.
  rewrite (u8_small BUTTON_RIGHT)
    by (pose proof (single_bit_range _ HR); lia).
  rewrite (u8_small BUTTON_UP)
    by (pose proof (single_bit_range _ HU); lia).
  rewrite (u8_small BUTTON_DOWN)
    by (pose proof (single_bit_range _ HD); lia).
  rewrite (u8_small BUTTON_LEFT)
    by (pose proof (single_bit_range _ HL); lia).
  rewrite (u8_small BUTTON_A)
    by (pose proof (single_bit_range _ HA); lia).
  rewrite Hnone. change (u8 0) with 0.
  split; [ | reflexivity].
  repeat match goal with
         | |- context [if ?b then _ else _] => destruct b
         end; auto.
Qed.

(** X13. The pin given to [connectZKeypad] is the one that is read, and
    each button answers for its band of readings: [pressed BUTTON_RIGHT]
    below 100, [BUTTON_UP] from 100, [BUTTON_DOWN] from 200, [BUTTON_LEFT]
    from 400, [BUTTON_A] from 600 up to 800, and [BUTTON_B] never. *)
Theorem zkeypad_pressed_bands (pin : Z) (w : World) :
  codes_wf ->
  exists w',
    connectZKeypad pin w = Done tt w' [] /\
    let v := analog (hw w) pin in
    let c := [CallButtons fn_zkeypadButtons] in
    pressed BUTTON_RIGHT w' = Done (v <? 100) w' c /\
    pressed BUTTON_UP w' = Done ((100 <=? v) && (v <? 200)) w' c /\
    pressed BUTTON_DOWN w' = Done ((200 <=? v) && (v <? 400)) w' c /\
    pressed BUTTON_LEFT w' = Done ((400 <=? v) && (v <? 600)) w' c /\
    pressed BUTTON_A w' = Done ((600 <=? v) && (v <? 800)) w' c /\
    pressed BUTTON_B w' = Done false w' c.
Proof.
  intros Hwf.
  destruct (zkeypad_connected_sample pin w Hwf) as (s & Hinv & Hone & Hs).
  destruct Hwf as (Hnone & Hbits & Hdup).
  rewrite forallb_forall in Hbits.
  assert (HD : single_bit BUTTON_DOWN = true) by (apply Hbits; simpl; tauto).
  assert (HL : single_bit BUTTON_LEFT = true) by (apply Hbits; simpl; tauto).
  assert (HR : single_bit BUTTON_RIGHT = true) by (apply Hbits; simpl; tauto).
  assert (HU : single_bit BUTTON_UP = true) by (apply Hbits; simpl; tauto).
  assert (HA : single_bit BUTTON_A = true) by (apply Hbits; simpl; tauto).
  assert (HB : single_bit BUTTON_B = true) by (apply Hbits; simpl; tauto).
  pose proof (single_bit_range _ HD) as PD.
  pose proof (single_bit_range _ HL) as PL.
  pose proof (single_bit_range _ HR) as PR.
  pose proof (single_bit_range _ HU) as PU.
  pose proof (single_bit_range _ HA) as PA.
  pose proof (single_bit_range _ HB) as PB.
  eexists. split; [reflexivity | ]. cbv zeta.
  set (v := analog (hw w) pin) in *.
  assert (Hq : forall m, single_bit m = true ->
             pressed m
               (with_engine (set_onButtons (Some fn_zkeypadButtons))
                  (with_engine (set_zkeypadPin pin) w))
             = Done (s =? m)
                 (with_engine (set_onButtons (Some fn_zkeypadButtons))
                    (with_engine (set_zkeypadPin pin) w))
                 [CallButtons fn_zkeypadButtons]).
  { intros m Hm.
    rewrite (proj1 (queries_installed m
                      (with_engine (set_onButtons (Some fn_zkeypadButtons))
                         (with_engine (set_zkeypadPin pin) w))
                      fn_zkeypadButtons s _ _ eq_refl Hinv)).
    rewrite (one_button_state_test s m Hone Hm). reflexivity. }
  rewrite !Hq by assumption.
  clear Hq Hinv Hone Hbits HD HL HR HU HA HB.
  assert (Hpick :
    (v < 100 /\ s = BUTTON_RIGHT) \/ (100 <= v < 200 /\ s = BUTTON_UP) \/
    (200 <= v < 400 /\ s = BUTTON_DOWN) \/
    (400 <= v < 600 /\ s = BUTTON_LEFT) \/
    (600 <= v < 800 /\ s = BUTTON_A) \/ (800 <= v /\ s = BUTTON_NONE)).
  { rewrite Hs.
    destruct (Z.ltb_spec v 100); [left; split; [lia | reflexivity] | right].
    destruct (Z.ltb_spec v 200); [left; split; [lia | reflexivity] | right].
    destruct (Z.ltb_spec v 400); [left; split; [lia | reflexivity] | right].
    destruct (Z.ltb_spec v 600); [left; split; [lia | reflexivity] | right].
    destruct (Z.ltb_spec v 800); [left; split; [lia | reflexivity] | right].
    split; [lia | reflexivity]. }
  clear Hs.
  assert (Hdiff : forall x m, x <> m -> (x =? m) = false)
    by (intros x m; apply Z.eqb_neq).
  assert (Hlt : forall a, (v < a -> (v <? a) = true) /\
                          (a <= v -> (v <? a) = false)).
  { intros a. split; [apply Z.ltb_lt | apply Z.ltb_ge]. }
  assert (Hle : forall a, (a <= v -> (a <=? v) = true) /\
                          (v < a -> (a <=? v) = false)).
  { intros a. split; [apply Z.leb_le | apply Z.leb_gt]. }
  pose proof (NoDup_six _ _ _ _ _ _ Hdup) as HN.
  split; [ | split; [ | split; [ | split; [ | split]]]].
  - destruct Hpick as [[I E] | [[I E] | [[I E] | [[I E] | [[I E] | [I E]]]]]];
      subst s;
      first [ rewrite Z.eqb_refl
            | rewrite (Hdiff _ BUTTON_RIGHT)
                by (first [ decompose [and] HN; congruence
                          | clear HN; lia ]) ];
      first [ rewrite (proj1 (Hlt 100)) by (clear HN; lia)
            | rewrite (proj2 (Hlt 100)) by (clear HN; lia) ];
      reflexivity.
  - destruct Hpick as [[I E] | [[I E] | [[I E] | [[I E] | [[I E] | [I E]]]]]];
      subst s;
      first [ rewrite Z.eqb_refl
            | rewrite (Hdiff _ BUTTON_UP)
                by (first [ decompose [and] HN; congruence
                          | clear HN; lia ]) ];
      first [ rewrite (proj1 (Hle 100)) by (clear HN; lia)
            | rewrite (proj2 (Hle 100)) by (clear HN; lia) ];
      first [ rewrite (proj1 (Hlt 200)) by (clear HN; lia)
            | rewrite (proj2 (Hlt 200)) by (clear HN; lia) ];
      reflexivity.
  - destruct Hpick as [[I E] | [[I E] | [[I E] | [[I E] | [[I E] | [I E]]]]]];
      subst s;
      first [ rewrite Z.eqb_refl
            | rewrite (Hdiff _ BUTTON_DOWN)
                by (first [ decompose [and] HN; congruence
                          | clear HN; lia ]) ];
      first [ rewrite (proj1 (Hle 200)) by (clear HN; lia)
            | rewrite (proj2 (Hle 200)) by (clear HN; lia) ];
      first [ rewrite (proj1 (Hlt 400)) by (clear HN; lia)
            | rewrite (proj2 (Hlt 400)) by (clear HN; lia) ];
      reflexivity.
  - destruct Hpick as [[I E] | [[I E] | [[I E] | [[I E] | [[I E] | [I E]]]]]];
      subst s;
      first [ rewrite Z.eqb_refl
            | rewrite (Hdiff _ BUTTON_LEFT)
                by (first [ decompose [and] HN; congruence
                          | clear HN; lia ]) ];
      first [ rewrite (proj1 (Hle 400)) by (clear HN; lia)
            | rewrite (proj2 (Hle 400)) by (clear HN; lia) ];
      first [ rewrite (proj1 (Hlt 600)) by (clear HN; lia)
            | rewrite (proj2 (Hlt 600)) by (clear HN; lia) ];
      reflexivity.
  - destruct Hpick as [[I E] | [[I E] | [[I E] | [[I E] | [[I E] | [I E]]]]]];
      subst s;
      first [ rewrite Z.eqb_refl
            | rewrite (Hdiff _ BUTTON_A)
                by (first [ decompose [and] HN; congruence
                          | clear HN; lia ]) ];
      first [ rewrite (proj1 (Hle 600)) by (clear HN; lia)
            | rewrite (proj2 (Hle 600)) by (clear HN; lia) ];
      first [ rewrite (proj1 (Hlt 800)) by (clear HN; lia)
            | rewrite (proj2 (Hlt 800)) by (clear HN; lia) ];
      reflexivity.
  - destruct Hpick as [[I E] | [[I E] | [[I E] | [[I E] | [[I E] | [I E]]]]]];
      subst s;
      rewrite (Hdiff _ BUTTON_B)
        by (first [ decompose [and] HN; congruence | clear HN; lia ]);
      reflexivity.
Qed.

(** X14. The Z-keypad cannot report a chord: once it is connected,
    [pressed] of two different buttons together is false at every
    reading. *)
Theorem zkeypad_no_chord (pin : Z) (w : World) (b1 b2 : Z) :
  codes_wf ->
  In b1 [BUTTON_DOWN; BUTTON_LEFT; BUTTON_RIGHT; BUTTON_UP; BUTTON_A; BUTTON_B] ->
  In b2 [BUTTON_DOWN; BUTTON_LEFT; BUTTON_RIGHT; BUTTON_UP; BUTTON_A; BUTTON_B] ->
  b1 <> b2 ->
  exists w',
    connectZKeypad pin w = Done tt w' [] /\
    pressed (Z.lor b1 b2) w' = Done false w' [CallButtons fn_zkeypadButtons].
Proof.
  intros Hwf H1 H2 Hne.
  destruct (zkeypad_connected_sample pin w Hwf) as (s & Hinv & Hone & _).
  destruct Hwf as (_ & Hbits & _).
  rewrite forallb_forall in Hbits.
  eexists. split; [reflexivity | ].
  rewrite (proj1 (queries_installed (Z.lor b1 b2)
                    (with_engine (set_onButtons (Some fn_zkeypadButtons))
                       (with_engine (set_zkeypadPin pin) w))
                    fn_zkeypadButtons s _ _ eq_refl Hinv)).
  rewrite (one_button_state_no_chord s b1 b2 Hone
             (Hbits b1 H1) (Hbits b2 H2) Hne).
  reflexivity.
Qed.

End ZKeypadQueries.

(** ** The Arduboy decoder *)

(** Bit [i] of an 8-bit store is bit [i] of the value stored. *)
Lemma u8_testbit (x i : Z) :
  0 <= i < 8 -> Z.testbit (u8 x) i = Z.testbit x i.
Proof.
  intros Hi. unfold u8. change 256 with (2 ^ 8).
  apply Z.mod_pow2_bits_low. lia.
Qed.

Lemma u8_testbit_high (x i : Z) :
  8 <= i -> Z.testbit (u8 x) i = false.
Proof.
  intros Hi. unfold u8. change 256 with (2 ^ 8).
  apply Z.mod_pow2_bits_high. lia.
Qed.

(** Evaluates the bits of the literal masks and the index arithmetic left
    by the shift lemmas, without touching the bits of the ports. *)
Ltac literal_bits :=
  repeat match goal with
         | |- context [Z.testbit _ (?a + ?b)] =>
             let r := eval compute in (a + b) in change (a + b) with r
         | |- context [Z.testbit _ (?a - ?b)] =>
             let r := eval compute in (a - b) in change (a - b) with r
         end;
  repeat match goal with
         | |- context [Z.testbit (Zpos ?p) ?i] =>
             let r := eval compute in (Z.testbit (Zpos p) i) in
             change (Z.testbit (Zpos p) i) with r
         end.

Ltac port_bit :=
  repeat first
    [ rewrite u8_testbit by lia
    | rewrite Z.lor_spec
    | rewrite Z.shiftr_spec by lia
    | rewrite Z.shiftl_spec by lia
    | rewrite Z.land_spec ];
  literal_bits;
  rewrite ?andb_true_r, ?andb_false_r, ?orb_false_r;
  cbn [orb];
  rewrite ?Z.lnot_spec by lia;
  try reflexivity.

Section Arduboy.
Context {sketch : Sketch}.

(** X15. On the ATmega32U4 the decoder maps the six active-low port pins
    to the six low bits of its result: bits 0 to 3 are the complements of
    port F bits 4 to 7, bit 4 of port E bit 6, bit 5 of port B bit 4; bits
    6 and 7 are never set.  It reads only, and calls nothing. *)
Theorem arduboyButtons_bits (w : World) :
  AVR_ATmega32U4 = true ->
  exists s,
    arduboyButtons w = Done s w [] /\
    0 <= s < 64 /\
    Z.testbit s 0 = negb (Z.testbit (PINF (hw w)) 4) /\
    Z.testbit s 1 = negb (Z.testbit (PINF (hw w)) 5) /\
    Z.testbit s 2 = negb (Z.testbit (PINF (hw w)) 6) /\
    Z.testbit s 3 = negb (Z.testbit (PINF (hw w)) 7) /\
    Z.testbit s 4 = negb (Z.testbit (PINE (hw w)) 6) /\
    Z.testbit s 5 = negb (Z.testbit (PINB (hw w)) 4).
Proof.
  intros Htarget. unfold arduboyButtons. rewrite Htarget.
  eexists. split; [reflexivity | ].
  set (s := u8 _).
  assert (H6 : Z.testbit s 6 = false) by (subst s; port_bit).
  assert (H7 : Z.testbit s 7 = false) by (subst s; port_bit).
  split.
  - assert (Hs : 0 <= s < 256)
      by (subst s; unfold u8; apply Z.mod_pos_bound; reflexivity).
    split; [lia | ].
    destruct (Z_lt_le_dec s 64) as [Hlt | Hge]; [exact Hlt | exfalso].
    assert (Hhigh : s / 2 ^ 6 = 1 \/ s / 2 ^ 6 = 2 \/ s / 2 ^ 6 = 3).
    { assert (1 <= s / 2 ^ 6) by (apply Z.div_le_lower_bound; lia).
      assert (s / 2 ^ 6 < 4) by (apply Z.div_lt_upper_bound; lia).
      lia. }
    assert (T6 : Z.testbit s 6 = Z.testbit (s / 2 ^ 6) 0)
      by (rewrite <- Z.shiftr_div_pow2, Z.shiftr_spec by lia; reflexivity).
    assert (T7 : Z.testbit s 7 = Z.testbit (s / 2 ^ 6) 1)
      by (rewrite <- Z.shiftr_div_pow2, Z.shiftr_spec by lia; reflexivity).
    destruct Hhigh as [Hq | [Hq | Hq]]; rewrite Hq in T6, T7;
      [ change (Z.testbit 1 0) with true in T6
      | change (Z.testbit 2 1) with true in T7
      | change (Z.testbit 3 0) with true in T6 ];
      congruence.
  - subst s. repeat split; port_bit.
Qed.

End Arduboy.

(** ** Constructing the SPI displays *)

(** X16. Both SPI display constructors hand their platform a bus
    frequency that is never zero: the caller's when it is not zero, and
    8 MHz otherwise, as with the default configuration.  The five other
    members are passed on unchanged, the interface gets the same
    data/command pin as the platform, the rotation starts at 0, and the two
    constructors build the same state from the same arguments. *)
Theorem spi_display_frequency (rstPin : Z) (config : SPlatformSpiConfig) :
  let d := DisplayST7735_128x128x16_SPI rstPin config in
  frequency (m_spi_platform d) <> 0 /\
  (frequency config <> 0 ->
   m_spi_platform d = config) /\
  (frequency config = 0 ->
   frequency (m_spi_platform d) = 8000000) /\
  busId (m_spi_platform d) = busId config /\
  cs (m_spi_platform d) = cs config /\
  dc (m_spi_platform d) = dc config /\
  scl (m_spi_platform d) = scl config /\
  sda (m_spi_platform d) = sda config /\
  m_spi_dc d = dc (m_spi_platform d) /\
  m_spi_rotation d = 0 /\
  m_rstPin d = rstPin /\
  DisplayST7735_128x160x16_SPI rstPin config = d /\
  DisplayST7735_128x128x16_SPI rstPin (m_spi_platform d) = d.
Proof.
  cbv zeta. unfold DisplayST7735_128x128x16_SPI, DisplayST7735_128x160x16_SPI.
  simpl. destruct config as [b c d f sc sd]. simpl.
  destruct (Z.eqb_spec f 0) as [-> | Hf]; simpl.
  - repeat split; try reflexivity; try discriminate.
    intros Hbad. exfalso. apply Hbad. reflexivity.
  - apply Z.eqb_neq in Hf as Hfb.
    repeat split; try reflexivity; try assumption.
    + intros Hbad. contradiction.
    + rewrite Hfb. reflexivity.
Qed.

(** * The further properties on concrete inputs *)

Lemma begin_then_nextFrame_witness :
  0 <= 40 < 2 ^ 32 /\
  exists w0,
    begin (power_up (2 ^ 32 - 5) 0) = Done tt w0 [] /\
    elapsed_ms (elapse 40 w0) = 40.
Proof.
  assert (Hd : 0 <= 40 < 2 ^ 32) by (split; [discriminate | reflexivity]).
  split; [exact Hd | ].
  destruct (@begin_then_nextFrame sample_sketch (power_up (2 ^ 32 - 5) 0) 40 Hd)
    as (w0 & Hb & Hel & _).
  exists w0. auto.
Defined.

Lemma nextFrame_clock_period_witness :
  0 < m_frameDurationMs (engine hooked_world) /\
  elapsed_ms (elapse (1 * 2 ^ 32) hooked_world) = elapsed_ms hooked_world /\
  @nextFrame sample_sketch
     (elapse (2 ^ 32 - elapsed_ms hooked_world) hooked_world)
  = Done false (elapse (2 ^ 32 - elapsed_ms hooked_world) hooked_world) [].
Proof.
  split; [reflexivity | ].
  destruct (@nextFrame_clock_period sample_sketch hooked_world 1)
    as (Hper & _ & Hround).
  split; [exact Hper | ].
  apply Hround. reflexivity.
Defined.


Lemma setFrameRate_duration_range_witness :
  1 <= 1 <= 255 /\
  exists w',
    setFrameRate 1 (power_up 0 0) = Done tt w' [] /\
    3 <= m_frameDurationMs (engine w') <= 250.
Proof.
  assert (Hfps : 1 <= 1 <= 255) by (split; discriminate).
  split; [exact Hfps | ].
  destruct (@setFrameRate_duration_range sample_sketch 1 (power_up 0 0) Hfps)
    as (w' & Hrun & Hrange & _).
  exists w'. auto.
Defined.

Lemma setFrameRate_not_slower_witness :
  1 <= 60 <= 255 /\
  exists w',
    setFrameRate 60 (power_up 0 0) = Done tt w' [] /\
    m_frameDurationMs (engine w') * 60 <= 1000.
Proof.
  assert (Hfps : 1 <= 60 <= 255) by (split; discriminate).
  split; [exact Hfps | ].
  destruct (setFrameRate_not_slower 60 (power_up 0 0) Hfps)
    as (w' & Hrun & Hmul & _).
  exists w'. auto.
Defined.

Lemma setFrameRate_twice_witness :
  30 <> 0 /\
  bind (setFrameRate 30) (fun _ => setFrameRate 60) (power_up 0 0)
  = setFrameRate 60 (power_up 0 0).
Proof.
  assert (Ha : 30 <> 0) by discriminate.
  split; [exact Ha | ].
  apply (setFrameRate_twice 30 60 (power_up 0 0) Ha).
Defined.

Lemma notPressed_negates_pressed_one_bit_witness :
  m_onButtons (engine keyed_world) = Some (fn_custom 5%nat) /\
  single_bit 4 = true /\
  exists b w1 c,
    @pressed sample_codes sample_sketch 4 keyed_world = Done b w1 c /\
    @notPressed sample_codes sample_sketch 4 keyed_world = Done (negb b) w1 c.
Proof.
  split; [reflexivity | ]. split; [reflexivity | ].
  apply (@notPressed_negates_pressed_one_bit sample_codes sample_sketch
           4 keyed_world (fn_custom 5%nat)); reflexivity.
Defined.

Lemma empty_mask_queries_witness :
  m_onButtons (engine keyed_world) = Some (fn_custom 5%nat) /\
  exists w1 c,
    @pressed sample_codes sample_sketch 0 keyed_world = Done true w1 c /\
    @notPressed sample_codes sample_sketch 0 keyed_world = Done true w1 c.
Proof.
  split; [reflexivity | ].
  destruct (@empty_mask_queries sample_codes sample_sketch keyed_world
              (fn_custom 5%nat) eq_refl) as (w1 & c & Hp & Hn & _).
  exists w1, c. auto.
Defined.

Lemma builtin_queries_pure_witness :
  m_onButtons (engine arduboy_world) = Some fn_arduboyButtons /\
  exists bp bn,
    @pressed sample_codes arduboy_sketch 16 arduboy_world
    = Done bp arduboy_world [CallButtons fn_arduboyButtons] /\
    @notPressed sample_codes arduboy_sketch 16 arduboy_world
    = Done bn arduboy_world [CallButtons fn_arduboyButtons].
Proof.
  split; [reflexivity | ].
  apply (@builtin_queries_pure sample_codes arduboy_sketch 16 arduboy_world
           fn_arduboyButtons).
  - right. reflexivity.
  - reflexivity.
Defined.

Lemma arduboy_keys_off_target_witness :
  @AVR_ATmega32U4 sample_sketch = false /\
  exists w',
    connectArduboyKeys (power_up 0 0) = Done tt w' [] /\
    @notPressed sample_codes sample_sketch 16 w'
    = Done true w' [CallButtons fn_arduboyButtons] /\
    @pressed sample_codes sample_sketch 16 w'
    = Done (0 =? 16) w' [CallButtons fn_arduboyButtons].
Proof.
  split; [reflexivity | ].
  apply (@arduboy_keys_off_target sample_codes sample_sketch 16 (power_up 0 0)).
  reflexivity.
Defined.

Lemma connectCustomKeys_null_witness :
  exists w',
    connectCustomKeys None keyed_world = Done tt w' [] /\
    @pressed sample_codes sample_sketch 4 w' = Crash NullCall [].
Proof.
  destruct (@connectCustomKeys_null sample_codes sample_sketch 4 keyed_world)
    as (w' & Hc & Hp & _).
  exists w'. auto.
Defined.

Lemma connect_keeps_pacing_witness :
  connectArduboyKeys hooked_world
  = Done tt (with_engine (set_onButtons (Some fn_arduboyButtons)) hooked_world) []
  /\
  m_lastFrameTs
    (engine (with_engine (set_onButtons (Some fn_arduboyButtons)) hooked_world))
  = m_lastFrameTs (engine hooked_world).
Proof.
  split; [reflexivity | ].
  destruct (@connect_keeps_pacing sample_sketch hooked_world
              (with_engine (set_onButtons (Some fn_arduboyButtons)) hooked_world)
              None 0 (or_intror (or_intror eq_refl)))
    as (_ & _ & Hts & _).
  exact Hts.
Defined.

Lemma zkeypad_pressed_bands_witness :
  @codes_wf sample_codes /\
  exists w',
    connectZKeypad 3 (power_up 0 150) = Done tt w' [] /\
    @pressed sample_codes sample_sketch (@BUTTON_UP sample_codes) w'
    = Done ((100 <=? 150) && (150 <? 200)) w' [CallButtons fn_zkeypadButtons].
Proof.
  split; [exact sample_codes_wf | ].
  destruct (@zkeypad_pressed_bands sample_codes sample_sketch 3
              (power_up 0 150) sample_codes_wf)
    as (w' & Hc & _ & Hup & _).
  exists w'. split; [exact Hc | exact Hup].
Defined.

Lemma zkeypad_no_chord_witness :
  @codes_wf sample_codes /\
  1 <> 2 /\
  exists w',
    connectZKeypad 3 (power_up 0 150) = Done tt w' [] /\
    @pressed sample_codes sample_sketch (Z.lor 1 2) w'
    = Done false w' [CallButtons fn_zkeypadButtons].
Proof.
  assert (Hne : 1 <> 2) by discriminate.
  split; [exact sample_codes_wf | ]. split; [exact Hne | ].
  apply (@zkeypad_no_chord sample_codes sample_sketch 3 (power_up 0 150) 1 2
           sample_codes_wf).
  - simpl. tauto.
  - simpl. tauto.
  - exact Hne.
Defined.

Lemma arduboyButtons_bits_witness :
  @AVR_ATmega32U4 arduboy_sketch = true /\
  exists s,
    @arduboyButtons arduboy_sketch arduboy_world = Done s arduboy_world [] /\
    0 <= s < 64 /\
    Z.testbit s 4 = negb (Z.testbit (PINE (hw arduboy_world)) 6).
Proof.
  split; [reflexivity | ].
  destruct (@arduboyButtons_bits arduboy_sketch arduboy_world eq_refl)
    as (s & Hrun & Hrange & _ & _ & _ & _ & HA & _).
  exists s. auto.
Defined.

Lemma spi_display_frequency_witness :
  frequency default_spi_config = 0 /\
  frequency (m_spi_platform (DisplayST7735_128x128x16_SPI 3 default_spi_config))
  = 8000000.
Proof.
  split; [reflexivity | ].
  destruct (spi_display_frequency 3 default_spi_config)
    as (_ & _ & Hdefault & _).
  apply Hdefault. reflexivity.
Defined.

(** The Arduboy with only A held reports bit 4 alone. *)
Example arduboy_a_held :
  @arduboyButtons arduboy_sketch arduboy_world = Done 16 arduboy_world [] /\
  @pressed sample_codes arduboy_sketch 16 arduboy_world
  = Done true arduboy_world [CallButtons fn_arduboyButtons] /\
  @notPressed sample_codes arduboy_sketch 32 arduboy_world
  = Done true arduboy_world [CallButtons fn_arduboyButtons].
Proof. repeat split. Qed.
